(** * A model of the lottery logic of [src/index.jsx]

    The registration form ([handleSubmit]), the weighted scratch prize with
    its stock check ([determinePrize]), the serial of the grand draw
    ([generateSerial]), the administrator views ([fetchAdminData],
    [clearAllData]) and the reveal detector of [ScratchCard].

    Modelling choices:
    - [Math.random()] is an input: a rational number in [0,1).  The prize
      probabilities of [PRIZES] are their exact decimal values as
      rationals; arithmetic on them is exact.
    - The Firestore store is a value: the list of order documents (with
      their ids) and the optional [stats/prize_counts] document.  Every
      remote call is a step of a function from the store to a result and a
      new store; which Firestore functions are loaded and which calls
      throw is given by an environment record. *)

From Stdlib Require Import String Ascii List Bool ZArith QArith Qround Lqa Lia.
From Stdlib Require Import Sorting.Permutation Sorting.Sorted.
Import ListNotations.
Open Scope string_scope.

(** ** Prizes *)

(** The [type] field of a prize: ['none'] or ['win']. *)
Inductive PrizeType := TNone | TWin.

Definition prize_type_eqb (a b : PrizeType) : bool :=
  match a, b with
  | TNone, TNone | TWin, TWin => true
  | _, _ => false
  end.

Record Prize := mkPrize {
  prize_id : string;
  name : string;
  ptype : PrizeType;
  prob : Q;
  limit : Z   (** [-1] means unlimited *)
}.

Definition PRIZES : list Prize := [
  mkPrize "none_1"  "銘謝惠顧"        TNone (38 # 100) (-1);
  mkPrize "none_2"  "下次再加油"      TNone (38 # 100) (-1);
  mkPrize "ext_1h"  "1小時續時券"     TWin  (10 # 100) (-1);
  mkPrize "disc_50" "50元折價券"      TWin  (10 # 100) (-1);
  mkPrize "ext_2h"  "2小時續時券"     TWin  (34 # 1000) 30;
  mkPrize "free_2h" "2小時免費包廂卷" TWin  (5 # 1000) 15;
  mkPrize "free_4h" "4小時免費包廂卷" TWin  (1 # 1000) 5
].

(** [PRIZES[0]] *)
Definition PRIZES0 : Prize := mkPrize "none_1" "銘謝惠顧" TNone (38 # 100) (-1).

(** The weighted selection loop of [determinePrize]:
    [for (const p of ps) { cumulative += p.prob;
       if (rand <= cumulative) { selectedPrize = p; break; } }]
    The last argument is the value [selectedPrize] had before the loop. *)
Fixpoint select_loop (ps : list Prize) (rand cumulative : Q) (selectedPrize : Prize)
  : Prize :=
  match ps with
  | [] => selectedPrize
  | p :: rest =>
      let cumulative' := cumulative + prob p in
      if Qle_bool rand cumulative' then p
      else select_loop rest rand cumulative' selectedPrize
  end.

(** [let cumulative = 0; let selectedPrize = PRIZES[0];] then the loop. *)
Definition select_prize (rand : Q) : Prize := select_loop PRIZES rand 0 PRIZES0.

(** Cumulative probability after the first [k] entries of [ps], starting
    from [c]. *)
Fixpoint psum (c : Q) (ps : list Prize) (k : nat) {struct k} : Q :=
  match k, ps with
  | O, _ => c
  | S k', p :: rest => psum (c + prob p) rest k'
  | S _, [] => c
  end.

Definition nonneg_probs (ps : list Prize) : Prop := Forall (fun p => 0 <= prob p) ps.

(** ** The store *)

(** A Firestore [Timestamp]. *)
Record Timestamp := mkTimestamp { seconds : Z; nanoseconds : Z }.

(** The form state [formData]. *)
Record FormData := mkFormData {
  phone : string;
  date : string;
  branch : string;
  room : string;
  duration : Z
}.

(** An order document of [artifacts/{appId}/public/data/orders].  [note] is
    [None] while the document has no [note] field. *)
Record Order := mkOrder {
  o_form : FormData;          (** the fields spread from [formData] *)
  userId : string;
  isGrandEligible : bool;
  grandDrawSerial : option string;
  scratchPrizeId : string;
  scratchPrizeName : string;
  scratchPrizeType : PrizeType;
  prizeSent : bool;
  timestamp : option Timestamp;
  note : option string
}.

Definition DocId := string.

(** [prize_counts]: the [stats/prize_counts] document, [None] when it does
    not exist; its data maps prize ids to counts. *)
Record Store := mkStore {
  orders : list (DocId * Order);
  prize_counts : option (list (string * Z))
}.

(** Which Firestore functions are loaded and which remote calls throw. *)
Inductive FsError := PermissionDenied | OtherError.

Record Env := mkEnv {
  has_collection : bool;
  has_query : bool;
  has_where : bool;
  has_getDocs : bool;
  has_addDoc : bool;
  has_serverTimestamp : bool;
  has_doc : bool;
  has_getDoc : bool;
  has_deleteDoc : bool;
  has_db : bool;
  getDocs_error : option FsError;
  getDoc_error : option FsError;
  addDoc_error : option FsError;
  deleteDoc_error : DocId -> option FsError
}.

(** ** [determinePrize] *)

(** [statsSnap.data()[id] || 0] *)
Fixpoint count_of (data : list (string * Z)) (id : string) : Z :=
  match data with
  | [] => 0
  | (k, v) :: rest => if String.eqb k id then v else count_of rest id
  end.

(** [let currentCount = 0; if (statsSnap.exists()) currentCount = ...] *)
Definition currentCount (st : Store) (id : string) : Z :=
  match prize_counts st with
  | None => 0
  | Some data => count_of data id
  end.

(** [PRIZES.find(p => p.id === 'disc_50') || PRIZES[0]] *)
Definition fallback_prize : Prize :=
  match find (fun p => String.eqb (prize_id p) "disc_50") PRIZES with
  | Some p => p
  | None => PRIZES0
  end.

(** [determinePrize], reading the store [st]; [rand] is [Math.random()]. *)
Definition determinePrize (env : Env) (st : Store) (rand : Q) : Prize :=
  let selectedPrize := select_prize rand in
  if negb (Z.eqb (limit selectedPrize) (-1)) then
    if negb (has_doc env && has_getDoc env && has_db env) then selectedPrize
    else
      match getDoc_error env with
      | Some _ => PRIZES0
      | None =>
          if Z.geb (currentCount st (prize_id selectedPrize)) (limit selectedPrize)
          then fallback_prize
          else selectedPrize
      end
  else selectedPrize.

(** ** [generateSerial] *)

Definition digit_char (d : Z) : ascii := ascii_of_nat (48 + Z.to_nat d).

(** Decimal digits of [n >= 0] prepended to [acc]. *)
Fixpoint dec_digits (fuel : nat) (n : Z) (acc : string) : string :=
  match fuel with
  | O => acc
  | S f =>
      let acc' := String (digit_char (n mod 10)) acc in
      if Z.ltb n 10 then acc' else dec_digits f (n / 10) acc'
  end.

(** [Number.prototype.toString] on an integer of magnitude below [10^21]. *)
Definition toString (n : Z) : string :=
  if Z.ltb n 0 then "-" ++ dec_digits 21 (- n) "" else dec_digits 21 n "".

(** [Math.floor(100000 + Math.random() * 900000).toString()] *)
Definition generateSerial (rand : Q) : string :=
  toString (Qfloor (inject_Z 100000 + rand * inject_Z 900000)).

(** ** Regular expressions used by the code *)

Definition is_digit (c : ascii) : bool :=
  (48 <=? nat_of_ascii c)%nat && (nat_of_ascii c <=? 57)%nat.

(** [s] matches [^\d{n}$]. *)
Fixpoint all_digits (n : nat) (s : string) : bool :=
  match n, s with
  | O, EmptyString => true
  | S n', String c rest => is_digit c && all_digits n' rest
  | _, _ => false
  end.

(** [/^09\d{8}$/.test(s)] *)
Definition phoneRegex_test (s : string) : bool :=
  match s with
  | String c0 (String c1 rest) =>
      Ascii.eqb c0 "0"%char && Ascii.eqb c1 "9"%char && all_digits 8 rest
  | _ => false
  end.

(** ** [handleSubmit] *)

Inductive SubmitError :=
  | InvalidInput       (** the phone does not match [^09\d{8}$] *)
  | DbNotReady         (** a Firestore function or [db] is not loaded *)
  | DuplicateEntry     (** an order with the same phone and date exists *)
  | PermissionError    (** a remote call threw [permission-denied] *)
  | Busy.              (** a remote call threw another error *)

Inductive SubmitResult :=
  | Rejected (e : SubmitError)
  | Registered (docId : DocId) (serial : option string) (prize : Prize).

(** The values the code draws during one submission: the two calls of
    [Math.random()], the server time stamped by [serverTimestamp()] and the
    id [addDoc] gives to the new document. *)
Record Draws := mkDraws {
  serial_rand : Q;
  prize_rand : Q;
  now : Timestamp;
  new_id : DocId
}.

(** The [catch (err)] of [handleSubmit]. *)
Definition catch_error (e : FsError) : SubmitError :=
  match e with
  | PermissionDenied => PermissionError
  | OtherError => Busy
  end.

Definition submit_fns_ready (env : Env) : bool :=
  has_collection env && has_query env && has_where env && has_getDocs env
  && has_addDoc env && has_serverTimestamp env && has_db env.

Definition add_fns_ready (env : Env) : bool :=
  has_addDoc env && has_collection env && has_serverTimestamp env && has_db env.

(** [query(orders, where('phone','==',phone), where('date','==',date))] *)
Definition duplicate_query (st : Store) (fd : FormData) : list (DocId * Order) :=
  filter (fun d => String.eqb (phone (o_form (snd d))) (phone fd)
                   && String.eqb (date (o_form (snd d))) (date fd))
         (orders st).

(** [handleSubmit] for the user [uid] (the component always has a user). *)
Definition handleSubmit (env : Env) (uid : string) (fd : FormData) (dr : Draws)
  (st : Store) : SubmitResult * Store :=
  if negb (phoneRegex_test (phone fd)) then (Rejected InvalidInput, st)
  else if negb (submit_fns_ready env) then (Rejected DbNotReady, st)
  else match getDocs_error env with
  | Some e => (Rejected (catch_error e), st)
  | None =>
      match duplicate_query st fd with
      | _ :: _ => (Rejected DuplicateEntry, st)
      | [] =>
          (* parseInt of the integer duration chosen in the form *)
          let isGrand := Z.geb (duration fd) 4 in
          let serial := if isGrand then Some (generateSerial (serial_rand dr)) else None in
          let prize := determinePrize env st (prize_rand dr) in
          if negb (add_fns_ready env) then (Rejected DbNotReady, st)
          else match addDoc_error env with
          | Some e => (Rejected (catch_error e), st)
          | None =>
              let o := mkOrder fd uid isGrand serial (prize_id prize) (name prize)
                         (ptype prize) false (Some (now dr)) None in
              (Registered (new_id dr) serial prize,
               mkStore (orders st ++ [(new_id dr, o)]) (prize_counts st))
          end
      end
  end.

(** A sequence of submissions, each by a user, with a form and draws. *)
Fixpoint register_all (env : Env) (st : Store)
  (reqs : list (string * FormData * Draws)) : Store :=
  match reqs with
  | [] => st
  | (uid, fd, dr) :: rest => register_all env (snd (handleSubmit env uid fd dr st)) rest
  end.

(** ** [clearAllData] *)

Inductive ClearResult :=
  | ClearCancelled
  | ClearNotReady
  | ClearFailed (e : FsError)
  | Cleared (n : nat).

(** [confirm1], [confirm2]: the answers to the two [confirm] dialogs.  Every
    [deleteDoc] is issued; those that throw leave their document. *)
Definition clearAllData (env : Env) (confirm1 confirm2 : bool) (st : Store)
  : ClearResult * Store :=
  if negb confirm1 then (ClearCancelled, st)
  else if negb confirm2 then (ClearCancelled, st)
  else if negb (has_collection env && has_getDocs env && has_deleteDoc env
                && has_doc env && has_db env) then (ClearNotReady, st)
  else match getDocs_error env with
  | Some e => (ClearFailed e, st)
  | None =>
      let kept := filter (fun d => match deleteDoc_error env (fst d) with
                                   | Some _ => true | None => false end)
                         (orders st) in
      let st' := mkStore kept (prize_counts st) in
      match kept with
      | [] => (Cleared (length (orders st)), st')
      | d :: _ =>
          match deleteDoc_error env (fst d) with
          | Some e => (ClearFailed e, st')
          | None => (ClearFailed OtherError, st')
          end
      end
  end.

(** ** [fetchAdminData] *)

(** [a.timestamp?.seconds || 0] *)
Definition ts_key (d : DocId * Order) : Z :=
  match timestamp (snd d) with
  | Some t => seconds t
  | None => 0
  end.

(** [tab === 'grand' ? d.isGrandEligible === true : d.scratchPrizeType === 'win'] *)
Definition tab_filter (tab : string) (d : DocId * Order) : bool :=
  if String.eqb tab "grand" then isGrandEligible (snd d)
  else prize_type_eqb (scratchPrizeType (snd d)) TWin.

(** [Array.prototype.sort] with the comparator [(a, b) => timeB - timeA]:
    a stable sort, here as an insertion sort. *)
Fixpoint insert_desc (x : DocId * Order) (l : list (DocId * Order)) :=
  match l with
  | [] => [x]
  | y :: ys => if Z.leb (ts_key y) (ts_key x) then x :: l else y :: insert_desc x ys
  end.

Fixpoint sort_desc (l : list (DocId * Order)) : list (DocId * Order) :=
  match l with
  | [] => []
  | x :: xs => insert_desc x (sort_desc xs)
  end.

(** The [adminData] shown after [fetchAdminData(tab)]. *)
Definition fetchAdminData (env : Env) (tab : string) (st : Store)
  : list (DocId * Order) :=
  if negb (has_collection env && has_getDocs env && has_db env) then []
  else match getDocs_error env with
  | Some _ => []
  | None => sort_desc (filter (tab_filter tab) (orders st))
  end.

(** ** The reveal detector of [ScratchCard]

    The overlay is the list of the alpha values of its pixels, as returned
    in [ctx.getImageData(0, 0, width, height).data].  Painting a disc of
    radius 20 with [destination-out] ([scratch]) is a parameter.  Event
    handlers run one at a time and the effect copying [isRevealed] into
    [isRevealedRef] runs between two events, so the state holds one
    [isRevealed] flag.  [completions] counts the [onComplete] callbacks
    scheduled with [setTimeout]. *)

(** [pixels[i + 3] < 128] counted over the samples. *)
Fixpoint count_transparent (px : list Z) : nat :=
  match px with
  | [] => O
  | a :: rest => (if Z.ltb a 128 then 1 else 0) + count_transparent rest
  end.

(** [(transparent / (pixels.length / 4)) * 100 > 75]; a division by zero
    gives [NaN] in the code and [0] here, and both fail the test. *)
Definition reveal_reached (px : list Z) : bool :=
  negb (Qle_bool
          (inject_Z (Z.of_nat (count_transparent px)) / inject_Z (Z.of_nat (length px)) * 100)
          75).

Record ScratchState := mkScratch {
  pixels : list Z;
  isDrawing : bool;
  isRevealed : bool;
  opacity_zero : bool;
  completions : nat
}.

Inductive ScratchEvent :=
  | StartDraw               (** [mousedown], [touchstart] *)
  | Draw (x y : Z)          (** [mousemove], [touchmove] at a position *)
  | EndDraw.                (** [mouseup], [touchend] *)

Section Reveal.

Variable scratch : list Z -> Z -> Z -> list Z.

Definition checkReveal (s : ScratchState) : ScratchState :=
  if reveal_reached (pixels s) then
    mkScratch (pixels s) (isDrawing s) true true (S (completions s))
  else s.

Definition scratch_step (s : ScratchState) (e : ScratchEvent) : ScratchState :=
  match e with
  | StartDraw => mkScratch (pixels s) true (isRevealed s) (opacity_zero s) (completions s)
  | EndDraw =>
      checkReveal (mkScratch (pixels s) false (isRevealed s) (opacity_zero s) (completions s))
  | Draw x y =>
      if negb (isDrawing s) || isRevealed s then s
      else checkReveal (mkScratch (scratch (pixels s) x y) (isDrawing s) (isRevealed s)
                          (opacity_zero s) (completions s))
  end.

Fixpoint scratch_run (s : ScratchState) (evs : list ScratchEvent) : ScratchState :=
  match evs with
  | [] => s
  | e :: rest => scratch_run (scratch_step s e) rest
  end.

(** Number of steps of [evs] from [s] taking [isRevealed] from false to true. *)
Fixpoint reveal_count (s : ScratchState) (evs : list ScratchEvent) : nat :=
  match evs with
  | [] => O
  | e :: rest =>
      let s' := scratch_step s e in
      (if negb (isRevealed s) && isRevealed s' then 1 else 0) + reveal_count s' rest
  end.

Definition reveal_inv (s : ScratchState) : Prop := isRevealed s = reveal_reached (pixels s).

End Reveal.

(** ** Administrator edits: [togglePrizeSent] and [updateNote] *)

(** Availability of [updateDoc] and whether it throws. *)
Record AdminEnv := mkAdminEnv {
  has_updateDoc : bool;
  updateDoc_error : option FsError
}.

(** [updateDoc(doc(db, ..., 'orders', docId), fields)]: applies [f] to the
    document [docId]; Firestore's [updateDoc] throws [not-found] (here
    [None]) when no such document exists. *)
Definition update_order (st : Store) (docId : DocId) (f : Order -> Order) : option Store :=
  if existsb (fun d => String.eqb (fst d) docId) (orders st) then
    Some (mkStore (map (fun d => if String.eqb (fst d) docId then (fst d, f (snd d)) else d)
                       (orders st))
                  (prize_counts st))
  else None.

(** [{ ...item, prizeSent: b }] *)
Definition set_prizeSent (b : bool) (o : Order) : Order :=
  mkOrder (o_form o) (userId o) (isGrandEligible o) (grandDrawSerial o) (scratchPrizeId o)
    (scratchPrizeName o) (scratchPrizeType o) b (timestamp o) (note o).

(** [{ ...item, note: n }] *)
Definition set_note (n : string) (o : Order) : Order :=
  mkOrder (o_form o) (userId o) (isGrandEligible o) (grandDrawSerial o) (scratchPrizeId o)
    (scratchPrizeName o) (scratchPrizeType o) (prizeSent o) (timestamp o) (Some n).

(** [setAdminData(prev => prev.map(item => item.id === docId ? f(item) : item))] *)
Definition map_row (docId : DocId) (f : Order -> Order) (rows : list (DocId * Order)) :=
  map (fun d => if String.eqb (fst d) docId then (fst d, f (snd d)) else d) rows.

(** [togglePrizeSent(docId, currentStatus)] on the store and on
    [adminData]; an error is caught and shown, nothing changes. *)
Definition togglePrizeSent (env : Env) (aenv : AdminEnv) (docId : DocId)
  (currentStatus : bool) (st : Store) (adminData : list (DocId * Order))
  : Store * list (DocId * Order) :=
  if negb (has_updateDoc aenv && has_doc env && has_db env) then (st, adminData)
  else match updateDoc_error aenv with
  | Some _ => (st, adminData)
  | None =>
      match update_order st docId (set_prizeSent (negb currentStatus)) with
      | None => (st, adminData)
      | Some st' => (st', map_row docId (set_prizeSent (negb currentStatus)) adminData)
      end
  end.

(** [updateNote(docId, newNote)]; [newNote || ''] is [newNote] for every
    string ([NoteEditor] passes [editValue.trim()]). *)
Definition updateNote (env : Env) (aenv : AdminEnv) (docId : DocId) (newNote : string)
  (st : Store) (adminData : list (DocId * Order)) : Store * list (DocId * Order) :=
  if negb (has_updateDoc aenv && has_doc env && has_db env) then (st, adminData)
  else match updateDoc_error aenv with
  | Some _ => (st, adminData)
  | None =>
      match update_order st docId (set_note newNote) with
      | None => (st, adminData)
      | Some st' => (st', map_row docId (set_note newNote) adminData)
      end
  end.

(** ** The registration form *)

Definition BRANCHES : list string :=
  ["大林店"; "八德店"; "南崁店"; "草漯店"; "楊梅店"; "中和中正店"].

Definition BRANCH_ROOMS : list (string * list string) := [
  ("大林店", ["南"; "西"; "北"; "中"; "發"; "白"]);
  ("八德店", ["梅"; "蘭"; "竹"; "菊"; "春"; "夏"; "秋"; "冬"; "轉運"; "改運"]);
  ("南崁店", ["1條"; "2條"; "3條"; "4條"; "5條"; "6條"; "7條"]);
  ("草漯店", ["1筒"; "2筒"; "3筒"; "4筒"; "5筒"; "6筒"]);
  ("楊梅店", ["康"; "財"; "福"; "祿"; "壽"; "喜"; "順"; "安"; "旺"]);
  ("中和中正店", ["壹"; "貳"; "參"; "肆"; "伍"; "陸"; "柒"; "捌"; "玖"; "拾"])
].

(** [BRANCH_ROOMS[b] || []] for a branch name [b]. *)
Definition rooms_of (b : string) : list string :=
  match find (fun e => String.eqb (fst e) b) BRANCH_ROOMS with
  | Some (_, rs) => rs
  | None => []
  end.

(** [rooms[0] || ''] *)
Definition first_room (rs : list string) : string :=
  match rs with
  | r :: _ => r
  | [] => ""
  end.

Definition BRANCHES0 : string := "大林店".

(** The initial [formData], [today] being [getTodayDateString()]. *)
Definition initial_formData (today : string) : FormData :=
  mkFormData "" today BRANCHES0 (first_room (rooms_of BRANCHES0)) 1.

(** The [onChange] handlers of the form fields, and the reset of the phone
    by the button of the result view. *)
Inductive FormEvent :=
  | SetPhone (s : string)
  | SetDate (s : string)
  | SetBranch (b : string)
  | SetRoom (r : string)
  | SetDuration (d : Z)
  | ResetPhone.

Definition form_step (fd : FormData) (e : FormEvent) : FormData :=
  match e with
  | SetPhone s => mkFormData s (date fd) (branch fd) (room fd) (duration fd)
  | SetDate s => mkFormData (phone fd) s (branch fd) (room fd) (duration fd)
  | SetBranch b => mkFormData (phone fd) (date fd) b (first_room (rooms_of b)) (duration fd)
  | SetRoom r => mkFormData (phone fd) (date fd) (branch fd) r (duration fd)
  | SetDuration d => mkFormData (phone fd) (date fd) (branch fd) (room fd) d
  | ResetPhone => mkFormData "" (date fd) (branch fd) (room fd) (duration fd)
  end.

(** The values a [select] can produce: a branch of [BRANCHES], a room of
    [getCurrentRooms()], a duration of [DURATIONS]. *)
Definition DURATION_VALS : list Z := [1; 2; 3; 4; 5; 6; 8; 12]%Z.

Definition form_event_ok (fd : FormData) (e : FormEvent) : bool :=
  match e with
  | SetBranch b => existsb (String.eqb b) BRANCHES
  | SetRoom r => existsb (String.eqb r) (rooms_of (branch fd))
  | SetDuration d => existsb (Z.eqb d) DURATION_VALS
  | _ => true
  end.

Fixpoint form_run (fd : FormData) (evs : list FormEvent) : FormData :=
  match evs with
  | [] => fd
  | e :: rest => form_run (form_step fd e) rest
  end.

Fixpoint form_trace_ok (fd : FormData) (evs : list FormEvent) : bool :=
  match evs with
  | [] => true
  | e :: rest => form_event_ok fd e && form_trace_ok (form_step fd e) rest
  end.

(** ** [getTodayDateString] *)

(** [s.padStart(2, '0')] *)
Definition padStart2 (s : string) : string :=
  match String.length s with
  | O => "00"
  | S O => "0" ++ s
  | _ => s
  end.

(** [`${year}-${String(month + 1).padStart(2, '0')}-${String(day).padStart(2, '0')}`]
    for [d.getFullYear()], [d.getMonth()] and [d.getDate()]. *)
Definition getTodayDateString (year month day : Z) : string :=
  toString year ++ "-" ++ padStart2 (toString (month + 1)) ++ "-" ++ padStart2 (toString day).

(** Reading a string of decimal digits back, left to right, from [a]. *)
Fixpoint of_digits_from (a : Z) (s : string) : Z :=
  match s with
  | EmptyString => a
  | String c rest => of_digits_from (10 * a + (Z.of_nat (nat_of_ascii c) - 48)) rest
  end.

(** Number of [EndDraw] events in a list. *)
Definition count_EndDraw (evs : list ScratchEvent) : nat :=
  length (filter (fun e => match e with EndDraw => true | _ => false end) evs).

(** Orders without two entries for the same phone and date. *)
Definition no_dup_entries (l : list (DocId * Order)) : Prop :=
  NoDup (map (fun d => (phone (o_form (snd d)), date (o_form (snd d)))) l).

(** ** Concrete inputs *)

(** All Firestore functions loaded, no call throws. *)
Definition env_ok : Env :=
  mkEnv true true true true true true true true true true None None None (fun _ => None).


(** As [env_ok], but [getDoc] throws. *)
Definition env_getDoc_fails : Env :=
  mkEnv true true true true true true true true true true None (Some OtherError) None
    (fun _ => None).

Definition store_empty : Store := mkStore [] None.

(** [free_4h] already awarded five times. *)
Definition store_free_4h_out : Store := mkStore [] (Some [("free_4h", 5%Z)]).

(** [Math.random()] value that selects [free_4h]. *)
Definition rand_free_4h : Q := 9995 # 10000.

Definition form_4h : FormData := mkFormData "0912345678" "2026-02-01" "b" "r" 4.

Definition draws_ex : Draws := mkDraws (1 # 2) (1 # 10) (mkTimestamp 100 0) "doc1".

Definition order_at (elig : bool) (t : Timestamp) : Order :=
  mkOrder form_4h "u" elig None "none_1" "銘謝惠顧" TNone false (Some t) None.

(** Two eligible orders stamped in the same second, the second one later. *)
Definition store_same_second : Store :=
  mkStore [("a", order_at true (mkTimestamp 100 1)); ("b", order_at true (mkTimestamp 100 5))]
    None.

(** An order of phone [ph], stamped at [t], with grand eligibility [elig]
    and prize type [ty]. *)
Definition order_of (ph : string) (elig : bool) (ty : PrizeType) (t : Timestamp) : Order :=
  mkOrder (mkFormData ph "2026-02-01" "大林店" "南" (if elig then 4 else 1)%Z) "u" elig
    (if elig then Some "550000" else None)
    (match ty with TWin => "ext_1h" | TNone => "none_1" end)
    (match ty with TWin => "1小時續時券" | TNone => "銘謝惠顧" end)
    ty false (Some t) None.

(** Four orders of four phones as [getDocs] returns them: [a] and [b]
    grand-eligible and stamped in the same second, [b] four nanoseconds
    later; [a] and [c] instant wins. *)
Definition store_admin : Store :=
  mkStore [("a", order_of "0911111111" true TWin (mkTimestamp 100 1));
           ("b", order_of "0922222222" true TNone (mkTimestamp 100 5));
           ("c", order_of "0933333333" false TWin (mkTimestamp 200 0));
           ("d", order_of "0944444444" false TNone (mkTimestamp 50 0))]
    None.

(** A four-pixel overlay; scratching at [x] clears pixel [x]. *)
Definition scratch_ex (px : list Z) (x _ : Z) : list Z :=
  firstn (Z.to_nat x) px ++ [0%Z] ++ skipn (S (Z.to_nat x)) px.

Definition scratch_init : ScratchState := mkScratch [255; 255; 255; 255]%Z false false false O.

(** ** Lemmas on the selection loop *)

Lemma psum_ge (ps : list Prize) :
  nonneg_probs ps -> forall c k, c <= psum c ps k.
Proof.
  induction ps as [|p ps IH]; intros Hn c k; destruct k; simpl; try lra.
  inversion Hn; subst.
  specialize (IH H2 (c + prob p) k). lra.
Qed.

Lemma select_loop_nth (ps : list Prize) :
  nonneg_probs ps ->
  forall c rand d i p,
    nth_error ps i = Some p ->
    (i = O \/ psum c ps i < rand) ->
    rand <= psum c ps (S i) ->
    select_loop ps rand c d = p.
Proof.
  induction ps as [|q ps IH]; intros Hn c rand d i p Hi Hlo Hhi.
  - destruct i; discriminate.
  - inversion Hn; subst. destruct i as [|i]; simpl in *.
    + injection Hi as <-. apply Qle_bool_iff in Hhi. cbn in Hhi. now rewrite Hhi.
    + destruct Hlo as [Hlo|Hlo]; [discriminate|].
      pose proof (psum_ge ps H2 (c + prob q) i) as Hge.
      destruct (Qle_bool rand (c + prob q)) eqn:E.
      * apply Qle_bool_iff in E. lra.
      * apply (IH H2 _ _ _ i); auto.
Qed.

Lemma select_loop_fallback (ps : list Prize) :
  nonneg_probs ps ->
  forall c rand d,
    psum c ps (length ps) < rand ->
    select_loop ps rand c d = d.
Proof.
  induction ps as [|q ps IH]; intros Hn c rand d H; simpl in *; auto.
  inversion Hn; subst.
  pose proof (psum_ge ps H3 (c + prob q) (length ps)) as Hge.
  destruct (Qle_bool rand (c + prob q)) eqn:E.
  - apply Qle_bool_iff in E. lra.
  - apply IH; auto.
Qed.

Lemma PRIZES_nonneg : nonneg_probs PRIZES.
Proof. repeat constructor; unfold prob; simpl; unfold Qle; simpl; lia. Qed.

Example select_prize_0 : prize_id (select_prize 0) = "none_1".
Proof. reflexivity. Qed.
Example select_prize_top : prize_id (select_prize (9995 # 10000)) = "free_4h".
Proof. reflexivity. Qed.

Example phone_ok_ex : phoneRegex_test "0912345678" = true.
Proof. reflexivity. Qed.
Example phone_bad_ex : phoneRegex_test "091234567" = false.
Proof. reflexivity. Qed.
Example serial_ex : generateSerial (1 # 2) = "550000".
Proof. reflexivity. Qed.

(** ** Lemmas on the reveal detector *)

Section RevealFacts.

Variable scratch : list Z -> Z -> Z -> list Z.

Lemma checkReveal_inv (s : ScratchState) :
  (isRevealed s = true -> reveal_reached (pixels s) = true) ->
  (reveal_reached (pixels s) = false -> isRevealed s = false) ->
  reveal_inv (checkReveal s).
Proof.
  intros H1 H2; unfold checkReveal, reveal_inv.
  destruct (reveal_reached (pixels s)) eqn:E; cbn [pixels isRevealed]; rewrite E; auto.
Qed.

Lemma scratch_step_inv (s : ScratchState) (e : ScratchEvent) :
  reveal_inv s -> reveal_inv (scratch_step scratch s e).
Proof.
  unfold reveal_inv; intros H; destruct e as [|x y|]; simpl; auto.
  - destruct (negb (isDrawing s) || isRevealed s) eqn:E; auto.
    apply orb_false_iff in E as [_ E].
    apply checkReveal_inv; simpl; rewrite E; congruence.
  - apply checkReveal_inv; simpl; rewrite H; auto.
Qed.

Lemma scratch_step_frozen (s : ScratchState) (e : ScratchEvent) :
  reveal_inv s -> isRevealed s = true ->
  pixels (scratch_step scratch s e) = pixels s /\ isRevealed (scratch_step scratch s e) = true.
Proof.
  unfold reveal_inv; intros Hi H; destruct e as [|x y|]; simpl; auto.
  - rewrite H, orb_true_r. auto.
  - unfold checkReveal; simpl. rewrite <- Hi, H. auto.
Qed.

Lemma scratch_run_inv (s : ScratchState) (evs : list ScratchEvent) :
  reveal_inv s -> reveal_inv (scratch_run scratch s evs).
Proof.
  revert s; induction evs as [|e evs IH]; intros s H; simpl; auto using scratch_step_inv.
Qed.

Lemma scratch_run_frozen (s : ScratchState) (evs : list ScratchEvent) :
  reveal_inv s -> isRevealed s = true ->
  pixels (scratch_run scratch s evs) = pixels s /\ isRevealed (scratch_run scratch s evs) = true.
Proof.
  revert s; induction evs as [|e evs IH]; intros s Hi H; simpl; auto.
  destruct (scratch_step_frozen s e Hi H) as [Hp Hr].
  destruct (IH (scratch_step scratch s e) (scratch_step_inv s e Hi) Hr) as [Hp' Hr'].
  split; congruence.
Qed.

Lemma reveal_count_run (s : ScratchState) (evs : list ScratchEvent) :
  reveal_inv s ->
  reveal_count scratch s evs =
    if isRevealed s then O else if isRevealed (scratch_run scratch s evs) then 1%nat else O.
Proof.
  revert s; induction evs as [|e evs IH]; intros s Hi; simpl.
  - destruct (isRevealed s); reflexivity.
  - rewrite (IH _ (scratch_step_inv s e Hi)).
    destruct (isRevealed s) eqn:Hr.
    + destruct (scratch_step_frozen s e Hi Hr) as [_ ->]. reflexivity.
    + simpl. destruct (isRevealed (scratch_step scratch s e)) eqn:Hr'; simpl.
      * destruct (scratch_run_frozen _ evs (scratch_step_inv s e Hi) Hr') as [_ ->].
        reflexivity.
      * reflexivity.
Qed.

End RevealFacts.

(** ** Lemmas on [generateSerial] *)

Lemma digit_char_is_digit (d : Z) : (0 <= d < 10)%Z -> is_digit (digit_char d) = true.
Proof.
  intros Hd. unfold is_digit, digit_char.
  rewrite nat_ascii_embedding by lia.
  apply andb_true_iff; split; apply Nat.leb_le; lia.
Qed.
Lemma dec_digits_all_digits (k : nat) :
  forall fuel n acc m,
    (k < fuel)%nat ->
    (k = O \/ 10 ^ Z.of_nat k <= n)%Z ->
    (0 <= n < 10 ^ Z.of_nat (S k))%Z ->
    all_digits m acc = true ->
    all_digits (S k + m) (dec_digits fuel n acc) = true.
Proof.
  induction k as [|k IH]; intros fuel n acc m Hf Hlo Hhi Hacc;
    destruct fuel as [|f]; try lia; cbn [dec_digits].
  - change (10 ^ Z.of_nat 1)%Z with 10%Z in Hhi.
    replace (Z.ltb n 10) with true by (symmetry; apply Z.ltb_lt; lia).
    cbn [all_digits Nat.add].
    rewrite digit_char_is_digit by (apply Z.mod_pos_bound; lia). exact Hacc.
  - destruct Hlo as [Hlo|Hlo]; [discriminate|].
    rewrite Nat2Z.inj_succ, Z.pow_succ_r in Hlo by lia.
    rewrite Nat2Z.inj_succ, Z.pow_succ_r in Hhi by lia.
    rewrite Nat2Z.inj_succ, Z.pow_succ_r in Hhi by lia.
    assert (Hp : (0 < 10 ^ Z.of_nat k)%Z) by (apply Z.pow_pos_nonneg; lia).
    replace (Z.ltb n 10) with false by (symmetry; apply Z.ltb_ge; nia).
    replace (S (S k) + m)%nat with (S k + S m)%nat by lia.
    apply IH; try lia.
    + right. apply Z.div_le_lower_bound; lia.
    + rewrite Nat2Z.inj_succ, Z.pow_succ_r by lia. split.
      * apply Z.div_pos; lia.
      * apply Z.div_lt_upper_bound; lia.
    + cbn [all_digits]. rewrite digit_char_is_digit by (apply Z.mod_pos_bound; lia). exact Hacc.
Qed.
Lemma toString_six_digits (n : Z) :
  (100000 <= n <= 999999)%Z -> all_digits 6 (toString n) = true.
Proof.
  intros Hn. unfold toString.
  replace (Z.ltb n 0) with false by (symmetry; apply Z.ltb_ge; lia).
  apply (dec_digits_all_digits 5 21 n "" 0).
  - lia.
  - right. change (10 ^ Z.of_nat 5)%Z with 100000%Z. lia.
  - change (10 ^ Z.of_nat 6)%Z with 1000000%Z. lia.
  - reflexivity.
Qed.

Lemma generateSerial_range (rand : Q) :
  0 <= rand -> rand < 1 ->
  exists n, (100000 <= n <= 999999)%Z /\ generateSerial rand = toString n.
Proof.
  intros H0 H1. exists (Qfloor (inject_Z 100000 + rand * inject_Z 900000)).
  split; [|reflexivity]. split.
  - assert (H : inject_Z 100000 <= inject_Z 100000 + rand * inject_Z 900000).
    { assert (0 <= rand * inject_Z 900000).
      { apply Qmult_le_0_compat; [assumption|unfold Qle; simpl; lia]. }
      lra. }
    apply Qfloor_resp_le in H. rewrite Qfloor_Z in H. exact H.
  - pose proof (Qfloor_le (inject_Z 100000 + rand * inject_Z 900000)) as Hf.
    assert (rand * inject_Z 900000 < inject_Z 900000).
    { setoid_replace (inject_Z 900000) with (1 * inject_Z 900000) at 2 by ring.
      apply Qmult_lt_r; [unfold Qlt; simpl; lia | assumption]. }
    assert (Hlt : inject_Z (Qfloor (inject_Z 100000 + rand * inject_Z 900000))
                  < inject_Z 1000000).
    { setoid_replace (inject_Z 1000000) with (inject_Z 100000 + inject_Z 900000)
        by (unfold Qeq; simpl; lia). lra. }
    rewrite <- Zlt_Qlt in Hlt. lia.
Qed.

(** ** The claims *)

Ltac prize_neq := let H := fresh in intro H; apply (f_equal prize_id) in H; vm_compute in H; discriminate.

(** C1 (counterexample): at [rand] equal to the first cumulative sum
    [0.38], the loop keeps [none_1] instead of moving on to [none_2]. *)
Lemma C1_boundary_counterexample :
  select_prize (psum 0 PRIZES 1) = nth 0 PRIZES PRIZES0 /\
  select_prize (psum 0 PRIZES 1) <> nth 1 PRIZES PRIZES0.
Proof. split; [reflexivity | prize_neq]. Qed.

(** C1 (amended): the selection of [determinePrize] returns the [i]-th
    prize exactly when [rand] lies in its interval closed at the upper
    end, [(cum_i, cum_(i+1)]] (the first one also taking [0] and below);
    and when [rand] is above every cumulative sum of the table it returns
    the value [selectedPrize] starts with, [PRIZES[0]], never an error. *)
Theorem select_prize_intervals :
  (forall rand i p,
     nth_error PRIZES i = Some p ->
     (i = O \/ psum 0 PRIZES i < rand) ->
     rand <= psum 0 PRIZES (S i) ->
     select_prize rand = p) /\
  (forall ps rand,
     nonneg_probs ps ->
     psum 0 ps (length ps) < rand ->
     select_loop ps rand 0 PRIZES0 = PRIZES0).
Proof.
  split.
  - intros rand i p Hi Hlo Hhi. unfold select_prize.
    exact (select_loop_nth PRIZES PRIZES_nonneg 0 rand PRIZES0 i p Hi Hlo Hhi).
  - intros ps rand Hn H. exact (select_loop_fallback ps Hn 0 rand PRIZES0 H).
Qed.

Lemma select_prize_intervals_witness :
  select_prize (38 # 100) = nth 0 PRIZES PRIZES0 /\
  select_loop [mkPrize "x" "x" TWin (1 # 2) (-1)] (3 # 4) 0 PRIZES0 = PRIZES0.
Proof.
  split.
  - apply (proj1 select_prize_intervals (38 # 100) O (nth 0 PRIZES PRIZES0));
      [reflexivity | left; reflexivity | vm_compute; discriminate].
  - apply (proj2 select_prize_intervals).
    + repeat constructor; unfold Qle; simpl; lia.
    + vm_compute. reflexivity.
Defined.




(** C3 (counterexample): when reading [prize_counts] throws,
    [determinePrize] returns [PRIZES[0]] ([none_1]) instead of the selected
    [free_4h], although nothing was awarded yet. *)
Lemma C3_read_error_counterexample :
  prize_id (select_prize rand_free_4h) = "free_4h" /\
  prize_id (determinePrize env_getDoc_fails store_empty rand_free_4h) = "none_1" /\
  determinePrize env_getDoc_fails store_empty rand_free_4h <> select_prize rand_free_4h.
Proof. split; [reflexivity | split; [reflexivity | prize_neq]]. Qed.

(** C3 (amended): for a selected prize with a limit, a failed read of
    [prize_counts] makes [determinePrize] return [PRIZES[0]] (the no-win
    [none_1]) without a stock check, and the registration still succeeds
    with that prize. *)
Theorem determinePrize_read_error (env : Env) (st : Store) (e : FsError)
  (uid : string) (fd : FormData) (dr : Draws) :
  limit (select_prize (prize_rand dr)) <> (-1)%Z ->
  has_doc env && has_getDoc env && has_db env = true ->
  getDoc_error env = Some e ->
  determinePrize env st (prize_rand dr) = PRIZES0 /\
  (phoneRegex_test (phone fd) = true ->
   submit_fns_ready env = true ->
   getDocs_error env = None ->
   duplicate_query st fd = [] ->
   addDoc_error env = None ->
   exists serial, fst (handleSubmit env uid fd dr st) = Registered (new_id dr) serial PRIZES0).
Proof.
  intros Hl Hf He.
  assert (Hd : determinePrize env st (prize_rand dr) = PRIZES0).
  { unfold determinePrize. apply Z.eqb_neq in Hl. rewrite Hl, Hf, He. reflexivity. }
  split; [exact Hd|].
  intros Hp Hs Hq Hdup Ha. unfold handleSubmit.
  rewrite Hp, Hs, Hq, Hdup, Hd. simpl negb; cbv iota.
  assert (Hadd : add_fns_ready env = true).
  { unfold submit_fns_ready in Hs; unfold add_fns_ready.
    repeat rewrite andb_true_iff in *. tauto. }
  rewrite Hadd, Ha. simpl. eexists. reflexivity.
Qed.

Lemma determinePrize_read_error_witness :
  determinePrize env_getDoc_fails store_empty rand_free_4h = PRIZES0 /\
  exists serial, fst (handleSubmit env_getDoc_fails "u" form_4h
                        (mkDraws (1 # 2) rand_free_4h (mkTimestamp 100 0) "doc1") store_empty)
                 = Registered "doc1" serial PRIZES0.
Proof.
  destruct (determinePrize_read_error env_getDoc_fails store_empty OtherError "u" form_4h
              (mkDraws (1 # 2) rand_free_4h (mkTimestamp 100 0) "doc1")
              ltac:(vm_compute; discriminate) eq_refl eq_refl) as [H1 H2].
  split; [exact H1 | exact (H2 eq_refl eq_refl eq_refl eq_refl eq_refl)].
Defined.

(** ** Lemmas on [handleSubmit] *)

Lemma handleSubmit_registered (env : Env) (uid : string) (fd : FormData) (dr : Draws)
  (st : Store) (id : DocId) (serial : option string) (prize : Prize) :
  fst (handleSubmit env uid fd dr st) = Registered id serial prize ->
  phoneRegex_test (phone fd) = true /\
  duplicate_query st fd = [] /\
  id = new_id dr /\
  serial = (if Z.geb (duration fd) 4 then Some (generateSerial (serial_rand dr)) else None) /\
  prize = determinePrize env st (prize_rand dr) /\
  snd (handleSubmit env uid fd dr st) =
    mkStore (orders st ++ [(id, mkOrder fd uid (Z.geb (duration fd) 4) serial (prize_id prize)
                                  (name prize) (ptype prize) false (Some (now dr)) None)])
            (prize_counts st).
Proof.
  unfold handleSubmit.
  destruct (phoneRegex_test (phone fd)); simpl; [|discriminate].
  destruct (submit_fns_ready env); simpl; [|discriminate].
  destruct (getDocs_error env); [discriminate|].
  destruct (duplicate_query st fd); [|discriminate].
  destruct (add_fns_ready env); simpl; [|discriminate].
  destruct (addDoc_error env); [discriminate|].
  simpl. intros H. injection H as <- <- <-. repeat split; reflexivity.
Qed.

Lemma handleSubmit_prize_counts (env : Env) (uid : string) (fd : FormData) (dr : Draws)
  (st : Store) :
  prize_counts (snd (handleSubmit env uid fd dr st)) = prize_counts st.
Proof.
  unfold handleSubmit.
  destruct (phoneRegex_test (phone fd)); simpl; [|reflexivity].
  destruct (submit_fns_ready env); simpl; [|reflexivity].
  destruct (getDocs_error env); [reflexivity|].
  destruct (duplicate_query st fd); [|reflexivity].
  destruct (add_fns_ready env); simpl; [|reflexivity].
  destruct (addDoc_error env); reflexivity.
Qed.

Lemma determinePrize_prize_counts (env : Env) (st st' : Store) (rand : Q) :
  prize_counts st' = prize_counts st ->
  determinePrize env st' rand = determinePrize env st rand.
Proof. intros H. unfold determinePrize, currentCount. now rewrite H. Qed.

(** C4: a phone not matching [^09\d{8}$] is rejected with [InvalidInput],
    and an existing order with the same phone and the same date makes the
    submission fail with [DuplicateEntry]; both leave the store as it was.
    [DuplicateEntry] is only returned when such an order exists, so an
    order with the same phone and another date does not trigger it. *)
Theorem handleSubmit_rejections (env : Env) (uid : string) (fd : FormData) (dr : Draws)
  (st : Store) :
  (phoneRegex_test (phone fd) = false ->
     handleSubmit env uid fd dr st = (Rejected InvalidInput, st)) /\
  (phoneRegex_test (phone fd) = true ->
     submit_fns_ready env = true ->
     getDocs_error env = None ->
     (exists id o, In (id, o) (orders st) /\
                   phone (o_form o) = phone fd /\ date (o_form o) = date fd) ->
     handleSubmit env uid fd dr st = (Rejected DuplicateEntry, st)) /\
  (fst (handleSubmit env uid fd dr st) = Rejected DuplicateEntry ->
     exists id o, In (id, o) (orders st) /\
                  phone (o_form o) = phone fd /\ date (o_form o) = date fd).
Proof.
  split; [|split].
  - intros Hp. unfold handleSubmit. now rewrite Hp.
  - intros Hp Hs Hq (id & o & Hin & Hph & Hd). unfold handleSubmit.
    rewrite Hp, Hs, Hq. simpl negb; cbv iota.
    assert (Hdup : In (id, o) (duplicate_query st fd)).
    { unfold duplicate_query. apply filter_In. split; [exact Hin|].
      simpl. rewrite Hph, Hd, !String.eqb_refl. reflexivity. }
    destruct (duplicate_query st fd); [contradiction | reflexivity].
  - unfold handleSubmit.
    destruct (phoneRegex_test (phone fd)); simpl; [|discriminate].
    destruct (submit_fns_ready env); simpl; [|discriminate].
    destruct (getDocs_error env) as [e|]; [destruct e; discriminate|].
    destruct (duplicate_query st fd) as [|[id o] rest] eqn:Hdq.
    + destruct (add_fns_ready env); simpl; [|discriminate].
      destruct (addDoc_error env) as [e|]; [destruct e|]; discriminate.
    + intros _. exists id, o.
      assert (Hin : In (id, o) (duplicate_query st fd)) by (rewrite Hdq; left; reflexivity).
      unfold duplicate_query in Hin. apply filter_In in Hin as [Hin Hb].
      simpl in Hb. apply andb_true_iff in Hb as [H1 H2].
      apply String.eqb_eq in H1, H2. auto.
Qed.

Lemma handleSubmit_rejections_witness :
  handleSubmit env_ok "u" (mkFormData "0812345678" "2026-02-01" "b" "r" 4) draws_ex
    store_empty = (Rejected InvalidInput, store_empty) /\
  handleSubmit env_ok "u" form_4h draws_ex store_same_second
    = (Rejected DuplicateEntry, store_same_second).
Proof.
  split.
  - apply (proj1 (handleSubmit_rejections env_ok "u" (mkFormData "0812345678" "2026-02-01" "b" "r" 4)
                    draws_ex store_empty)). reflexivity.
  - apply (proj1 (proj2 (handleSubmit_rejections env_ok "u" form_4h draws_ex store_same_second)));
      try reflexivity.
    exists "a", (order_at true (mkTimestamp 100 1)). split; [left; reflexivity | split; reflexivity].
Defined.

(** C5: a successful registration stores an order whose [isGrandEligible]
    is [duration >= 4] and whose [grandDrawSerial] is present exactly when
    it is eligible; the serial is then the decimal string of an integer in
    [[100000, 999999]], six digits, and [null] otherwise. *)
Theorem handleSubmit_grand_serial (env : Env) (uid : string) (fd : FormData) (dr : Draws)
  (st : Store) (id : DocId) (serial : option string) (prize : Prize) :
  0 <= serial_rand dr -> serial_rand dr < 1 ->
  fst (handleSubmit env uid fd dr st) = Registered id serial prize ->
  exists o,
    orders (snd (handleSubmit env uid fd dr st)) = (orders st ++ [(id, o)])%list /\
    isGrandEligible o = Z.geb (duration fd) 4 /\
    grandDrawSerial o = serial /\
    (isGrandEligible o = true ->
       exists n s, serial = Some s /\ (100000 <= n <= 999999)%Z /\
                   s = toString n /\ all_digits 6 s = true) /\
    (isGrandEligible o = false -> serial = None).
Proof.
  intros H0 H1 Hr.
  destruct (handleSubmit_registered env uid fd dr st id serial prize Hr)
    as (_ & _ & _ & Hs & _ & Hst).
  rewrite Hst. eexists. simpl. split; [reflexivity|].
  split; [reflexivity|]. split; [reflexivity|]. split.
  - intros Hg. simpl in Hg. rewrite Hg in Hs.
    destruct (generateSerial_range (serial_rand dr) H0 H1) as (n & Hn & Hgen).
    exists n, (generateSerial (serial_rand dr)). split; [exact Hs|].
    split; [exact Hn|]. split; [exact Hgen|]. rewrite Hgen. now apply toString_six_digits.
  - intros Hg. simpl in Hg. now rewrite Hg in Hs.
Qed.

Lemma handleSubmit_grand_serial_witness :
  exists o,
    orders (snd (handleSubmit env_ok "u" form_4h draws_ex store_empty)) = [("doc1", o)] /\
    isGrandEligible o = true /\
    grandDrawSerial o = Some "550000" /\
    (isGrandEligible o = true ->
       exists n s, Some "550000" = Some s /\ (100000 <= n <= 999999)%Z /\
                   s = toString n /\ all_digits 6 s = true) /\
    (isGrandEligible o = false -> Some "550000" = None).
Proof.
  apply (handleSubmit_grand_serial env_ok "u" form_4h draws_ex store_empty "doc1"
           (Some "550000") PRIZES0).
  - unfold Qle; simpl; lia.
  - unfold Qlt; simpl; lia.
  - reflexivity.
Defined.

(** C6 (counterexample): after a successful [clearAllData] the
    [prize_counts] record still holds the count [5] of [free_4h]. *)
Lemma C6_counts_kept_counterexample :
  fst (clearAllData env_ok true true store_free_4h_out) = Cleared 0 /\
  prize_counts (snd (clearAllData env_ok true true store_free_4h_out))
    = Some [("free_4h", 5%Z)] /\
  currentCount (snd (clearAllData env_ok true true store_free_4h_out)) "free_4h" = 5%Z.
Proof. repeat split; reflexivity. Qed.

(** C6 (amended): a successful [clearAllData] (both confirmations given,
    the functions loaded, every deletion done) leaves no order, and it
    never changes the [prize_counts] record, whatever its outcome. *)
Theorem clearAllData_effect (env : Env) (c1 c2 : bool) (st : Store) :
  prize_counts (snd (clearAllData env c1 c2 st)) = prize_counts st /\
  (forall n, fst (clearAllData env c1 c2 st) = Cleared n ->
     orders (snd (clearAllData env c1 c2 st)) = [] /\ n = length (orders st)).
Proof.
  unfold clearAllData.
  destruct c1; simpl; [|split; [reflexivity | discriminate]].
  destruct c2; simpl; [|split; [reflexivity | discriminate]].
  destruct (has_collection env && has_getDocs env && has_deleteDoc env && has_doc env
            && has_db env); simpl; [|split; [reflexivity | discriminate]].
  destruct (getDocs_error env); [split; [reflexivity | discriminate]|].
  destruct (filter _ (orders st)) as [|d rest] eqn:Hk.
  - split; [reflexivity|]. intros n Hn. injection Hn as <-. simpl. auto.
  - split; [destruct (deleteDoc_error env (fst d)); reflexivity|].
    intros n. destruct (deleteDoc_error env (fst d)); discriminate.
Qed.

Lemma clearAllData_effect_witness :
  orders (snd (clearAllData env_ok true true store_same_second)) = [] /\ 2%nat = 2%nat.
Proof.
  exact (proj2 (clearAllData_effect env_ok true true store_same_second) 2%nat eq_refl).
Defined.

(** C7: registration never writes [prize_counts]: along any sequence of
    submissions the record, every count read from it, and so the result of
    [determinePrize], stay those of the initial store. *)
Theorem registration_keeps_prize_counts (env : Env) (st : Store)
  (reqs : list (string * FormData * Draws)) :
  prize_counts (register_all env st reqs) = prize_counts st /\
  (forall id, currentCount (register_all env st reqs) id = currentCount st id) /\
  (forall rand, determinePrize env (register_all env st reqs) rand = determinePrize env st rand).
Proof.
  assert (H : prize_counts (register_all env st reqs) = prize_counts st).
  { revert st; induction reqs as [|[[uid fd] dr] reqs IH]; intros st; simpl; auto.
    rewrite IH. apply handleSubmit_prize_counts. }
  split; [exact H|]. split.
  - intros id. unfold currentCount. now rewrite H.
  - intros rand. now apply determinePrize_prize_counts.
Qed.

(** C10 (counterexample): the order created by a registration has no
    [note] field at all, not an empty note. *)
Lemma C10_note_counterexample :
  map (fun d => note (snd d)) (orders (snd (handleSubmit env_ok "u" form_4h draws_ex store_empty)))
    = [None] /\
  map (fun d => note (snd d)) (orders (snd (handleSubmit env_ok "u" form_4h draws_ex store_empty)))
    <> [Some ""].
Proof. split; [reflexivity | discriminate]. Qed.

(** C10 (amended): the order created by a successful registration has
    [prizeSent = false] and no [note] field (the admin table shows a missing
    note as empty), with the awarded prize's id, name and type and the
    serial. *)
Theorem handleSubmit_new_order (env : Env) (uid : string) (fd : FormData) (dr : Draws)
  (st : Store) (id : DocId) (serial : option string) (prize : Prize) :
  fst (handleSubmit env uid fd dr st) = Registered id serial prize ->
  exists o,
    orders (snd (handleSubmit env uid fd dr st)) = (orders st ++ [(id, o)])%list /\
    prizeSent o = false /\ note o = None /\
    scratchPrizeId o = prize_id prize /\ scratchPrizeName o = name prize /\
    scratchPrizeType o = ptype prize /\ grandDrawSerial o = serial /\ o_form o = fd.
Proof.
  intros Hr.
  destruct (handleSubmit_registered env uid fd dr st id serial prize Hr)
    as (_ & _ & _ & _ & _ & Hst).
  rewrite Hst. eexists. simpl. repeat split; reflexivity.
Qed.

Lemma handleSubmit_new_order_witness :
  exists o,
    orders (snd (handleSubmit env_ok "u" form_4h draws_ex store_empty)) = [("doc1", o)] /\
    prizeSent o = false /\ note o = None /\
    scratchPrizeId o = prize_id PRIZES0 /\ scratchPrizeName o = name PRIZES0 /\
    scratchPrizeType o = ptype PRIZES0 /\ grandDrawSerial o = Some "550000" /\ o_form o = form_4h.
Proof.
  apply (handleSubmit_new_order env_ok "u" form_4h draws_ex store_empty "doc1"
           (Some "550000") PRIZES0).
  reflexivity.
Defined.

(** ** Lemmas on the sort of [fetchAdminData] *)

Definition newer_first (a b : DocId * Order) : Prop := (ts_key b <= ts_key a)%Z.

Lemma insert_desc_perm (x : DocId * Order) (l : list (DocId * Order)) :
  Permutation (insert_desc x l) (x :: l).
Proof.
  induction l as [|y ys IH]; simpl; auto.
  destruct (Z.leb (ts_key y) (ts_key x)); auto.
  eapply perm_trans; [apply perm_skip, IH | apply perm_swap].
Qed.

Lemma sort_desc_perm (l : list (DocId * Order)) : Permutation (sort_desc l) l.
Proof.
  induction l as [|x xs IH]; simpl; auto.
  eapply perm_trans; [apply insert_desc_perm | apply perm_skip, IH].
Qed.

Lemma insert_desc_hdrel (a x : DocId * Order) (l : list (DocId * Order)) :
  HdRel newer_first a l -> newer_first a x -> HdRel newer_first a (insert_desc x l).
Proof.
  destruct l as [|y ys]; simpl; intros H Hx; auto.
  destruct (Z.leb (ts_key y) (ts_key x)); auto.
  inversion H; subst; auto.
Qed.

Lemma insert_desc_sorted (x : DocId * Order) (l : list (DocId * Order)) :
  Sorted newer_first l -> Sorted newer_first (insert_desc x l).
Proof.
  induction l as [|y ys IH]; simpl; intros Hs; auto.
  destruct (Z.leb (ts_key y) (ts_key x)) eqn:E.
  - apply Z.leb_le in E. constructor; auto.
  - apply Z.leb_gt in E. inversion Hs; subst.
    constructor; auto. apply insert_desc_hdrel; auto.
    unfold newer_first; lia.
Qed.

Lemma sort_desc_sorted (l : list (DocId * Order)) : Sorted newer_first (sort_desc l).
Proof. induction l as [|x xs IH]; simpl; auto using insert_desc_sorted. Qed.

(** C8: on [store_admin] the filters select as the claim says (the grand
    list holds [a] and [b], the instant-win list [c] and [a]), but the grand
    list shows [a] before [b] although [b] was created later: the
    comparator reads only [timestamp.seconds], so orders of the same second
    keep the [getDocs] order and the list is not newest-first. *)
Lemma C8_newest_first_divergence :
  map fst (fetchAdminData env_ok "grand" store_admin) = ["a"; "b"] /\
  map fst (fetchAdminData env_ok "win" store_admin) = ["c"; "a"] /\
  timestamp (order_of "0911111111" true TWin (mkTimestamp 100 1)) = Some (mkTimestamp 100 1) /\
  timestamp (order_of "0922222222" true TNone (mkTimestamp 100 5)) = Some (mkTimestamp 100 5).
Proof. repeat split; reflexivity. Qed.

(** C9: from an overlay not yet over the threshold and not revealed, after
    any events [isRevealed] holds exactly when more than 75% of the pixels
    are cleared, the flag has been raised once if it is set and never
    otherwise, and once it is set further events scratch nothing and raise
    it no more. *)
Theorem scratch_reveal_once (scratch : list Z -> Z -> Z -> list Z) (s0 : ScratchState)
  (evs1 evs2 : list ScratchEvent) :
  isRevealed s0 = false ->
  reveal_reached (pixels s0) = false ->
  isRevealed (scratch_run scratch s0 evs1) = reveal_reached (pixels (scratch_run scratch s0 evs1)) /\
  reveal_count scratch s0 evs1 = (if isRevealed (scratch_run scratch s0 evs1) then 1 else 0)%nat /\
  (isRevealed (scratch_run scratch s0 evs1) = true ->
     pixels (scratch_run scratch (scratch_run scratch s0 evs1) evs2)
       = pixels (scratch_run scratch s0 evs1) /\
     isRevealed (scratch_run scratch (scratch_run scratch s0 evs1) evs2) = true /\
     reveal_count scratch (scratch_run scratch s0 evs1) evs2 = O).
Proof.
  intros Hr Hp.
  assert (Hi0 : reveal_inv s0) by (unfold reveal_inv; congruence).
  pose proof (scratch_run_inv scratch s0 evs1 Hi0) as Hi1.
  split; [exact Hi1|]. split.
  - rewrite (reveal_count_run scratch s0 evs1 Hi0), Hr. reflexivity.
  - intros H1. destruct (scratch_run_frozen scratch _ evs2 Hi1 H1) as [Hpx Hrv].
    split; [exact Hpx|]. split; [exact Hrv|].
    rewrite (reveal_count_run scratch _ evs2 Hi1), H1. reflexivity.
Qed.

Lemma scratch_reveal_once_witness :
  isRevealed (scratch_run scratch_ex scratch_init
                [StartDraw; Draw 0 0; Draw 1 0; Draw 2 0; Draw 3 0])
  = reveal_reached (pixels (scratch_run scratch_ex scratch_init
                [StartDraw; Draw 0 0; Draw 1 0; Draw 2 0; Draw 3 0])).
Proof.
  exact (proj1 (scratch_reveal_once scratch_ex scratch_init
                  [StartDraw; Draw 0 0; Draw 1 0; Draw 2 0; Draw 3 0] [Draw 0 0; EndDraw]
                  eq_refl eq_refl)).
Defined.

Example scratch_reveal_example :
  isRevealed (scratch_run scratch_ex scratch_init [StartDraw; Draw 0 0; Draw 1 0; Draw 2 0])
    = false /\
  reveal_count scratch_ex scratch_init
    [StartDraw; Draw 0 0; Draw 1 0; Draw 2 0; Draw 3 0; Draw 3 0; EndDraw] = 1%nat.
Proof. split; reflexivity. Qed.

(** ** Further properties of the code *)

Lemma select_loop_cover (q : Prize) (ps : list Prize) :
  forall c rand d,
    rand <= psum c (q :: ps) (S (length ps)) ->
    exists i, nth_error (q :: ps) i = Some (select_loop (q :: ps) rand c d) /\
              (i = O \/ psum c (q :: ps) i < rand) /\
              rand <= psum c (q :: ps) (S i).
Proof.
  revert q; induction ps as [|q' ps IH]; intros q c rand d H; simpl in *.
  - destruct (Qle_bool rand (c + prob q)) eqn:E.
    + exists O. simpl. split; [reflexivity|]. split; [left; reflexivity|].
      apply Qle_bool_iff in E. exact E.
    + apply Qle_bool_iff in H. rewrite H in E. discriminate.
  - destruct (Qle_bool rand (c + prob q)) eqn:E.
    + exists O. simpl. split; [reflexivity|]. split; [left; reflexivity|].
      apply Qle_bool_iff in E. exact E.
    + destruct (IH q' (c + prob q) rand d H) as (i & Hi & Hlo & Hhi).
      exists (S i). simpl. split; [exact Hi|]. split; [|exact Hhi].
      right. destruct Hlo as [->|Hlo]; [|exact Hlo].
      simpl. apply Qnot_le_lt. intros Hle. apply Qle_bool_iff in Hle. congruence.
Qed.

(** X1: every [Math.random()] value in [[0,1)] lies in the interval of the
    prize the selection loop returns: the seven intervals
    [(cum_i, cum_(i+1)]] cover [[0,1)], so the fallback to [PRIZES[0]] is
    never taken with the table's probabilities. *)
Theorem select_prize_cover (rand : Q) :
  0 <= rand -> rand < 1 ->
  exists i, nth_error PRIZES i = Some (select_prize rand) /\
            (i = O \/ psum 0 PRIZES i < rand) /\
            rand <= psum 0 PRIZES (S i).
Proof.
  intros H0 H1. unfold select_prize, PRIZES.
  apply select_loop_cover.
  assert (Hs : psum 0 PRIZES 7 == 1) by reflexivity.
  unfold PRIZES in Hs. simpl length. lra.
Qed.

Lemma select_prize_cover_witness :
  exists i, nth_error PRIZES i = Some (select_prize (1 # 2)) /\
            (i = O \/ psum 0 PRIZES i < 1 # 2) /\
            1 # 2 <= psum 0 PRIZES (S i).
Proof.
  apply select_prize_cover; [unfold Qle; simpl; lia | unfold Qlt; simpl; lia].
Defined.

Lemma select_loop_in (ps : list Prize) (rand c : Q) (d : Prize) :
  In (select_loop ps rand c d) ps \/ select_loop ps rand c d = d.
Proof.
  revert c; induction ps as [|p ps IH]; intros c; simpl; auto.
  destruct (Qle_bool rand (c + prob p)); [left; left; reflexivity|].
  destruct (IH (c + prob p)) as [H|H]; auto.
Qed.

Lemma determinePrize_in (env : Env) (st : Store) (rand : Q) :
  In (determinePrize env st rand) PRIZES.
Proof.
  assert (H0 : In PRIZES0 PRIZES) by (left; reflexivity).
  assert (Hs : In (select_prize rand) PRIZES).
  { unfold select_prize. destruct (select_loop_in PRIZES rand 0 PRIZES0) as [H|H];
      [exact H | rewrite H; exact H0]. }
  assert (Hf : In fallback_prize PRIZES) by (do 3 right; left; reflexivity).
  unfold determinePrize.
  destruct (negb _); [|exact Hs].
  destruct (negb _); [exact Hs|].
  destruct (getDoc_error env); [exact H0|].
  destruct (Z.geb _ _); assumption.
Qed.

(** X2: the prize [determinePrize] awards is always one of the seven
    entries of [PRIZES], and an order stored by a registration records the
    id, name and type of that entry. *)
Theorem registered_prize_in_table (env : Env) (uid : string) (fd : FormData) (dr : Draws)
  (st : Store) (id : DocId) (serial : option string) (prize : Prize) :
  fst (handleSubmit env uid fd dr st) = Registered id serial prize ->
  In prize PRIZES /\
  exists o, In (id, o) (orders (snd (handleSubmit env uid fd dr st))) /\
            scratchPrizeId o = prize_id prize /\ scratchPrizeName o = name prize /\
            scratchPrizeType o = ptype prize.
Proof.
  intros Hr.
  destruct (handleSubmit_registered env uid fd dr st id serial prize Hr)
    as (_ & _ & _ & _ & Hp & Hst).
  split; [rewrite Hp; apply determinePrize_in|].
  rewrite Hst. eexists. simpl. split.
  - apply in_or_app. right. left. reflexivity.
  - repeat split; reflexivity.
Qed.

Lemma registered_prize_in_table_witness :
  In PRIZES0 PRIZES /\
  exists o, In ("doc1", o) (orders (snd (handleSubmit env_ok "u" form_4h draws_ex store_empty))) /\
            scratchPrizeId o = prize_id PRIZES0 /\ scratchPrizeName o = name PRIZES0 /\
            scratchPrizeType o = ptype PRIZES0.
Proof.
  apply (registered_prize_in_table env_ok "u" form_4h draws_ex store_empty "doc1"
           (Some "550000") PRIZES0).
  reflexivity.
Defined.


Lemma handleSubmit_cases (env : Env) (uid : string) (fd : FormData) (dr : Draws) (st : Store) :
  snd (handleSubmit env uid fd dr st) = st \/
  exists id serial prize, fst (handleSubmit env uid fd dr st) = Registered id serial prize.
Proof.
  unfold handleSubmit.
  destruct (phoneRegex_test (phone fd)); simpl; [|auto].
  destruct (submit_fns_ready env); simpl; [|auto].
  destruct (getDocs_error env); [auto|].
  destruct (duplicate_query st fd); [|auto].
  destruct (add_fns_ready env); simpl; [|auto].
  destruct (addDoc_error env); [auto|]. right. simpl. eauto.
Qed.



Lemma handleSubmit_no_dup (env : Env) (uid : string) (fd : FormData) (dr : Draws) (st : Store) :
  no_dup_entries (orders st) -> no_dup_entries (orders (snd (handleSubmit env uid fd dr st))).
Proof.
  intros Hn. destruct (handleSubmit_cases env uid fd dr st) as [-> | (id & serial & prize & Hr)];
    [exact Hn|].
  destruct (handleSubmit_registered env uid fd dr st id serial prize Hr)
    as (_ & Hdq & _ & _ & _ & Hst).
  rewrite Hst. unfold no_dup_entries in *. simpl. rewrite map_app. simpl.
  apply NoDup_app; [exact Hn | constructor; [intros []|constructor] |].
  intros a Ha [Heq|[]]. subst a.
  apply in_map_iff in Ha as ([id' o'] & Hpd & Hin). simpl in Hpd.
  injection Hpd as Hph Hd.
  assert (Hq : In (id', o') (duplicate_query st fd)).
  { unfold duplicate_query. apply filter_In. split; [exact Hin|].
    simpl. rewrite Hph, Hd, !String.eqb_refl. reflexivity. }
  rewrite Hdq in Hq. contradiction.
Qed.

(** X4: in a store without two orders for the same phone and date, any
    sequence of submissions keeps it so: sequential registration never
    stores a second order for a (phone, date) pair. *)
Theorem register_all_no_dup (env : Env) (st : Store) (reqs : list (string * FormData * Draws)) :
  no_dup_entries (orders st) -> no_dup_entries (orders (register_all env st reqs)).
Proof.
  revert st; induction reqs as [|[[uid fd] dr] reqs IH]; intros st Hn; simpl; auto.
  apply IH, handleSubmit_no_dup, Hn.
Qed.

Lemma register_all_no_dup_witness :
  no_dup_entries (orders (register_all env_ok store_empty
                            [("u", form_4h, draws_ex); ("v", form_4h, draws_ex)])).
Proof. apply register_all_no_dup. constructor. Defined.

Lemma handleSubmit_appends (env : Env) (uid : string) (fd : FormData) (dr : Draws) (st : Store) :
  exists added, orders (snd (handleSubmit env uid fd dr st)) = (orders st ++ added)%list /\
    Forall (fun d => phoneRegex_test (phone (o_form (snd d))) = true /\
                     isGrandEligible (snd d) = Z.geb (duration (o_form (snd d))) 4 /\
                     prizeSent (snd d) = false /\ note (snd d) = None) added.
Proof.
  destruct (handleSubmit_cases env uid fd dr st) as [-> | (id & serial & prize & Hr)].
  - exists []. rewrite app_nil_r. auto.
  - destruct (handleSubmit_registered env uid fd dr st id serial prize Hr)
      as (Hp & _ & _ & _ & _ & Hst).
    rewrite Hst. eexists. split; [reflexivity|].
    repeat constructor. exact Hp.
Qed.

(** X5: a sequence of submissions only appends orders: the orders already
    stored stay, unchanged and in place, and every added order has a phone
    matching [^09\d{8}$], [isGrandEligible] equal to [duration >= 4],
    [prizeSent = false] and no note. *)
Theorem register_all_appends (env : Env) (st : Store) (reqs : list (string * FormData * Draws)) :
  exists added, orders (register_all env st reqs) = (orders st ++ added)%list /\
    Forall (fun d => phoneRegex_test (phone (o_form (snd d))) = true /\
                     isGrandEligible (snd d) = Z.geb (duration (o_form (snd d))) 4 /\
                     prizeSent (snd d) = false /\ note (snd d) = None) added.
Proof.
  revert st; induction reqs as [|[[uid fd] dr] reqs IH]; intros st; simpl.
  - exists []. rewrite app_nil_r. auto.
  - destruct (handleSubmit_appends env uid fd dr st) as (a1 & H1 & F1).
    destruct (IH (snd (handleSubmit env uid fd dr st))) as (a2 & H2 & F2).
    exists (a1 ++ a2)%list. rewrite H2, H1, app_assoc. split; [reflexivity|].
    apply Forall_app; auto.
Qed.

(** X6: [clearAllData] does nothing unless both confirmations are given;
    once it runs, the orders left are exactly those whose [deleteDoc]
    threw (the other deletions still happen), and it reports success with
    the number of orders exactly when every deletion succeeded. *)
Theorem clearAllData_partial (env : Env) (c1 c2 : bool) (st : Store) :
  (c1 = false \/ c2 = false -> clearAllData env c1 c2 st = (ClearCancelled, st)) /\
  (c1 = true -> c2 = true ->
   has_collection env && has_getDocs env && has_deleteDoc env && has_doc env && has_db env
     = true ->
   getDocs_error env = None ->
   orders (snd (clearAllData env c1 c2 st))
     = filter (fun d => match deleteDoc_error env (fst d) with Some _ => true | None => false end)
              (orders st) /\
   (fst (clearAllData env c1 c2 st) = Cleared (length (orders st)) <->
    forall d, In d (orders st) -> deleteDoc_error env (fst d) = None)).
Proof.
  split.
  - intros [-> | ->]; unfold clearAllData; [reflexivity|]. destruct c1; reflexivity.
  - intros -> -> Hf He. unfold clearAllData. rewrite Hf, He. simpl negb; cbv iota.
    destruct (filter _ (orders st)) as [|d0 rest] eqn:Hk.
    + split; [reflexivity|]. split; [|reflexivity].
      intros _ d Hin. destruct (deleteDoc_error env (fst d)) eqn:Ed; [|reflexivity].
      assert (Hd : In d (filter (fun d => match deleteDoc_error env (fst d) with
                                          | Some _ => true | None => false end) (orders st))).
      { apply filter_In. rewrite Ed. auto. }
      rewrite Hk in Hd. contradiction.
    + assert (Hd0 : In d0 (filter (fun d => match deleteDoc_error env (fst d) with
                                            | Some _ => true | None => false end) (orders st)))
        by (rewrite Hk; left; reflexivity).
      apply filter_In in Hd0 as [Hin Hb].
      split; [destruct (deleteDoc_error env (fst d0)); reflexivity|].
      split.
      * destruct (deleteDoc_error env (fst d0)); discriminate.
      * intros Hall. rewrite (Hall d0 Hin) in Hb. discriminate.
Qed.

Lemma clearAllData_partial_witness :
  orders (snd (clearAllData
     (mkEnv true true true true true true true true true true None None None
        (fun i => if String.eqb i "a" then Some OtherError else None))
     true true store_same_second)) = [("a", order_at true (mkTimestamp 100 1))].
Proof.
  destruct (clearAllData_partial
     (mkEnv true true true true true true true true true true None None None
        (fun i => if String.eqb i "a" then Some OtherError else None))
     true true store_same_second) as [_ H].
  destruct (H eq_refl eq_refl eq_refl eq_refl) as [Ho _].
  rewrite Ho. reflexivity.
Defined.

Lemma insert_desc_filter_key (k : Z) (x : DocId * Order) (l : list (DocId * Order)) :
  filter (fun d => Z.eqb (ts_key d) k) (insert_desc x l)
  = filter (fun d => Z.eqb (ts_key d) k) (x :: l).
Proof.
  induction l as [|y ys IH]; simpl; [reflexivity|].
  destruct (Z.leb (ts_key y) (ts_key x)) eqn:E; [reflexivity|].
  apply Z.leb_gt in E. simpl. rewrite IH. simpl.
  destruct (Z.eqb (ts_key x) k) eqn:Ex, (Z.eqb (ts_key y) k) eqn:Ey; try reflexivity.
  apply Z.eqb_eq in Ex, Ey. lia.
Qed.

Lemma sort_desc_filter_key (k : Z) (l : list (DocId * Order)) :
  filter (fun d => Z.eqb (ts_key d) k) (sort_desc l) = filter (fun d => Z.eqb (ts_key d) k) l.
Proof.
  induction l as [|x xs IH]; simpl; [reflexivity|].
  rewrite insert_desc_filter_key. simpl. rewrite IH. reflexivity.
Qed.

(** X7: the sort of the admin lists is stable: the orders sharing a
    [timestamp.seconds] value appear in the order Firestore returned them. *)
Theorem fetchAdminData_stable (env : Env) (tab : string) (st : Store) (k : Z) :
  has_collection env && has_getDocs env && has_db env = true ->
  getDocs_error env = None ->
  filter (fun d => Z.eqb (ts_key d) k) (fetchAdminData env tab st)
  = filter (fun d => Z.eqb (ts_key d) k) (filter (tab_filter tab) (orders st)).
Proof.
  intros Hf He. unfold fetchAdminData. rewrite Hf, He. simpl negb; cbv iota.
  apply sort_desc_filter_key.
Qed.

Lemma fetchAdminData_stable_witness :
  map fst (filter (fun d => Z.eqb (ts_key d) 100) (fetchAdminData env_ok "grand" store_same_second))
  = ["a"; "b"].
Proof. rewrite (fetchAdminData_stable env_ok "grand" store_same_second 100 eq_refl eq_refl).
  reflexivity. Defined.

Lemma map_row_existsb (docId : DocId) (f : Order -> Order) (l : list (DocId * Order)) :
  existsb (fun d => String.eqb (fst d) docId) (map_row docId f l)
  = existsb (fun d => String.eqb (fst d) docId) l.
Proof.
  induction l as [|[i o] l IH]; simpl; [reflexivity|].
  destruct (String.eqb i docId) eqn:E; simpl; rewrite ?E, ?IH; reflexivity.
Qed.

Lemma map_row_compose (docId : DocId) (f g : Order -> Order) (l : list (DocId * Order)) :
  map_row docId g (map_row docId f l) = map_row docId (fun o => g (f o)) l.
Proof.
  induction l as [|[i o] l IH]; simpl; [reflexivity|].
  destruct (String.eqb i docId) eqn:E; simpl; rewrite ?E, IH; reflexivity.
Qed.

Lemma map_row_id (docId : DocId) (f : Order -> Order) (l : list (DocId * Order)) :
  (forall o, In (docId, o) l -> f o = o) -> map_row docId f l = l.
Proof.
  induction l as [|[i o] l IH]; intros H; simpl; [reflexivity|].
  rewrite IH by (intros o' Hin; apply H; right; exact Hin).
  destruct (String.eqb i docId) eqn:E; [|reflexivity].
  apply String.eqb_eq in E. subst i. rewrite H by (left; reflexivity). reflexivity.
Qed.

Lemma update_order_map_row (st : Store) (docId : DocId) (f : Order -> Order) :
  update_order st docId f =
  if existsb (fun d => String.eqb (fst d) docId) (orders st)
  then Some (mkStore (map_row docId f (orders st)) (prize_counts st)) else None.
Proof. reflexivity. Qed.

(** X8: [togglePrizeSent] writes [!currentStatus]; called with the row's
    status and then again with the new status, it gives back the store and
    the admin rows it started from (also when the document does not exist,
    where both calls change nothing). *)
Theorem togglePrizeSent_round_trip (env : Env) (aenv : AdminEnv) (docId : DocId) (cur : bool)
  (st : Store) (rows : list (DocId * Order)) :
  has_updateDoc aenv && has_doc env && has_db env = true ->
  updateDoc_error aenv = None ->
  (forall o, In (docId, o) (orders st) -> prizeSent o = cur) ->
  (forall o, In (docId, o) rows -> prizeSent o = cur) ->
  togglePrizeSent env aenv docId (negb cur)
    (fst (togglePrizeSent env aenv docId cur st rows))
    (snd (togglePrizeSent env aenv docId cur st rows)) = (st, rows).
Proof.
  intros Hf He Hs Hr.
  assert (Hback : forall l, (forall o, In (docId, o) l -> prizeSent o = cur) ->
            map_row docId (set_prizeSent (negb (negb cur)))
              (map_row docId (set_prizeSent (negb cur)) l) = l).
  { intros l Hl. rewrite map_row_compose. apply map_row_id.
    intros o Hin. rewrite negb_involutive, <- (Hl o Hin). destruct o; reflexivity. }
  unfold togglePrizeSent. rewrite Hf, He. simpl negb; cbv iota.
  rewrite !update_order_map_row.
  destruct (existsb (fun d => String.eqb (fst d) docId) (orders st)) eqn:Ex;
    cbn [fst snd orders prize_counts].
  - rewrite map_row_existsb, Ex. cbn [fst snd].
    change (map (fun d => if String.eqb (fst d) docId then (fst d, set_prizeSent (negb (negb cur)) (snd d)) else d)
              (map_row docId (set_prizeSent (negb cur)) (orders st)))
      with (map_row docId (set_prizeSent (negb (negb cur)))
              (map_row docId (set_prizeSent (negb cur)) (orders st))).
    rewrite (Hback _ Hs), (Hback _ Hr). destruct st; reflexivity.
  - rewrite Ex. reflexivity.
Qed.

Lemma togglePrizeSent_round_trip_witness :
  togglePrizeSent env_ok (mkAdminEnv true None) "a" true
    (fst (togglePrizeSent env_ok (mkAdminEnv true None) "a" false store_same_second []))
    (snd (togglePrizeSent env_ok (mkAdminEnv true None) "a" false store_same_second []))
  = (store_same_second, []).
Proof.
  apply (togglePrizeSent_round_trip env_ok (mkAdminEnv true None) "a" false store_same_second []);
    try reflexivity.
  - intros o H; simpl in H; destruct H as [H|[H|[]]]; inversion H; reflexivity.
  - intros o [].
Defined.

(** X9: saving notes is last-write-wins: saving [n1] and then [n2] on the
    same order leaves the store and the admin rows as saving [n2] alone. *)
Theorem updateNote_last_wins (env : Env) (aenv : AdminEnv) (docId : DocId) (n1 n2 : string)
  (st : Store) (rows : list (DocId * Order)) :
  updateNote env aenv docId n2
    (fst (updateNote env aenv docId n1 st rows))
    (snd (updateNote env aenv docId n1 st rows))
  = updateNote env aenv docId n2 st rows.
Proof.
  unfold updateNote.
  destruct (has_updateDoc aenv && has_doc env && has_db env); simpl; [|reflexivity].
  destruct (updateDoc_error aenv); [reflexivity|].
  rewrite !update_order_map_row.
  destruct (existsb (fun d => String.eqb (fst d) docId) (orders st)) eqn:Ex;
    cbn [fst snd orders prize_counts].
  - rewrite map_row_existsb, Ex. cbn [fst snd].
    change (map (fun d => if String.eqb (fst d) docId then (fst d, set_note n2 (snd d)) else d)
              (map_row docId (set_note n1) (orders st)))
      with (map_row docId (set_note n2) (map_row docId (set_note n1) (orders st))).
    rewrite !map_row_compose. reflexivity.
  - rewrite Ex. reflexivity.
Qed.

Lemma filter_map_comm {A} (p : A -> bool) (g : A -> A) (l : list A) :
  (forall x, p (g x) = p x) -> filter p (map g l) = map g (filter p l).
Proof.
  intros Hp. induction l as [|x l IH]; simpl; [reflexivity|].
  rewrite Hp. destruct (p x); simpl; rewrite IH; reflexivity.
Qed.

Lemma insert_desc_map (g : DocId * Order -> DocId * Order) x l :
  (forall y, ts_key (g y) = ts_key y) ->
  insert_desc (g x) (map g l) = map g (insert_desc x l).
Proof.
  intros Hg. induction l as [|y l IH]; simpl; [reflexivity|].
  rewrite !Hg. destruct (Z.leb (ts_key y) (ts_key x)); simpl; rewrite ?IH; reflexivity.
Qed.

Lemma sort_desc_map (g : DocId * Order -> DocId * Order) l :
  (forall y, ts_key (g y) = ts_key y) -> sort_desc (map g l) = map g (sort_desc l).
Proof.
  intros Hg. induction l as [|x l IH]; simpl; [reflexivity|].
  rewrite IH. apply insert_desc_map, Hg.
Qed.

(** An edit that leaves the fields read by [fetchAdminData] alone: the
    local [setAdminData(prev => prev.map(...))] gives the list a refetch of
    the same tab would show. *)
Lemma admin_edit_refetch (env : Env) (tab : string) (docId : DocId) (f : Order -> Order) (st : Store) :
  (forall o, timestamp (f o) = timestamp o) ->
  (forall o, isGrandEligible (f o) = isGrandEligible o) ->
  (forall o, scratchPrizeType (f o) = scratchPrizeType o) ->
  map_row docId f (fetchAdminData env tab st)
  = fetchAdminData env tab (mkStore (map_row docId f (orders st)) (prize_counts st)).
Proof.
  intros Ht Hg Hp. unfold fetchAdminData. cbn [orders].
  destruct (negb (has_collection env && has_getDocs env && has_db env)); [reflexivity|].
  destruct (getDocs_error env); [reflexivity|].
  unfold map_row. rewrite filter_map_comm, sort_desc_map; [reflexivity| |].
  - intros [i o]. unfold ts_key. simpl. destruct (String.eqb i docId); simpl; rewrite ?Ht; reflexivity.
  - intros [i o]. unfold tab_filter. simpl.
    destruct (String.eqb i docId); simpl; rewrite ?Hg, ?Hp; reflexivity.
Qed.

(** X10: on the admin list of a tab, marking an order sent or unsent, or
    saving its note, updates the rows in place to exactly what a refetch of
    that tab from the updated store shows: same rows, same order. *)
Theorem admin_edits_match_refetch (env : Env) (aenv : AdminEnv) (tab : string) (docId : DocId)
  (cur : bool) (n : string) (st : Store) :
  snd (togglePrizeSent env aenv docId cur st (fetchAdminData env tab st))
  = fetchAdminData env tab (fst (togglePrizeSent env aenv docId cur st (fetchAdminData env tab st)))
  /\
  snd (updateNote env aenv docId n st (fetchAdminData env tab st))
  = fetchAdminData env tab (fst (updateNote env aenv docId n st (fetchAdminData env tab st))).
Proof.
  unfold togglePrizeSent, updateNote.
  destruct (negb (has_updateDoc aenv && has_doc env && has_db env)); [split; reflexivity|].
  destruct (updateDoc_error aenv); [split; reflexivity|].
  rewrite !update_order_map_row.
  destruct (existsb (fun d => String.eqb (fst d) docId) (orders st)); cbn [fst snd];
    [|split; reflexivity].
  split; apply admin_edit_refetch; reflexivity.
Qed.

(** A form whose branch, room and duration are values the selects offer. *)
Definition form_inv (fd : FormData) : bool :=
  existsb (String.eqb (branch fd)) BRANCHES
  && existsb (String.eqb (room fd)) (rooms_of (branch fd))
  && existsb (Z.eqb (duration fd)) DURATION_VALS.

Lemma first_room_ok (b : string) :
  existsb (String.eqb b) BRANCHES = true ->
  existsb (String.eqb (first_room (rooms_of b))) (rooms_of b) = true.
Proof.
  intros H. apply existsb_exists in H as [b' [Hin Heq]].
  apply String.eqb_eq in Heq. subst b'.
  simpl in Hin. repeat destruct Hin as [<-|Hin]; try reflexivity. destruct Hin.
Qed.

Lemma form_step_inv (fd : FormData) (e : FormEvent) :
  form_inv fd = true -> form_event_ok fd e = true -> form_inv (form_step fd e) = true.
Proof.
  unfold form_inv. intros H He. apply andb_prop in H as [H Hd]. apply andb_prop in H as [Hb Hr].
  destruct e as [s|s|b|r|d|]; cbn [form_event_ok form_step branch room duration] in He |- *.
  1,2,6: rewrite Hb, Hr, Hd; reflexivity.
  - rewrite He, (first_room_ok b He), Hd. reflexivity.
  - rewrite Hb, He, Hd. reflexivity.
  - rewrite Hb, Hr, He. reflexivity.
Qed.

Lemma form_run_inv (fd : FormData) (evs : list FormEvent) :
  form_inv fd = true -> form_trace_ok fd evs = true -> form_inv (form_run fd evs) = true.
Proof.
  revert fd. induction evs as [|e evs IH]; intros fd H Ht; simpl in *; [exact H|].
  apply andb_prop in Ht as [He Ht]. apply IH; [apply form_step_inv|]; assumption.
Qed.

(** X11: from the initial form, whatever the user picks in the selects, the
    branch is one of [BRANCHES], the room one of that branch's rooms (the
    branch handler resets it to the first room) and the duration one of
    [DURATIONS]; so [handleSubmit] never sees an empty room. *)
Theorem form_selection_consistent (today : string) (evs : list FormEvent) :
  form_trace_ok (initial_formData today) evs = true ->
  let fd := form_run (initial_formData today) evs in
  In (branch fd) BRANCHES /\ In (room fd) (rooms_of (branch fd))
  /\ In (duration fd) DURATION_VALS /\ room fd <> "".
Proof.
  intros Ht fd.
  assert (H : form_inv fd = true) by (apply form_run_inv; [reflexivity|exact Ht]).
  unfold form_inv in H. apply andb_prop in H as [H Hd]. apply andb_prop in H as [Hb Hr].
  apply existsb_exists in Hb as [b [Hbin Hb]]. apply String.eqb_eq in Hb.
  apply existsb_exists in Hr as [r [Hrin Hr]]. apply String.eqb_eq in Hr.
  apply existsb_exists in Hd as [d [Hdin Hd]]. apply Z.eqb_eq in Hd.
  rewrite Hb in Hrin. rewrite Hb, Hr, Hd. split; [exact Hbin|]. split; [exact Hrin|].
  split; [exact Hdin|].
  simpl in Hbin. repeat destruct Hbin as [<-|Hbin]; try contradiction;
    simpl in Hrin; repeat destruct Hrin as [<-|Hrin]; try discriminate; contradiction.
Qed.

Lemma form_selection_consistent_witness :
  form_trace_ok (initial_formData "2026-02-01") [SetBranch "八德店"; SetRoom "竹"; SetDuration 4%Z] = true
  /\ room (form_run (initial_formData "2026-02-01") [SetBranch "八德店"; SetRoom "竹"; SetDuration 4%Z]) <> "".
Proof.
  split; [reflexivity|].
  apply (form_selection_consistent "2026-02-01" [SetBranch "八德店"; SetRoom "竹"; SetDuration 4%Z]).
  reflexivity.
Defined.

(** ** Lemmas on [getTodayDateString] *)

Fixpoint digits_only (s : string) : bool :=
  match s with
  | EmptyString => true
  | String c rest => is_digit c && digits_only rest
  end.

(** Splitting at the first ['-']. *)
Fixpoint split_dash (s : string) : string * string :=
  match s with
  | EmptyString => (EmptyString, EmptyString)
  | String c rest =>
      if Ascii.eqb c "-"%char then (EmptyString, rest)
      else let (a, b) := split_dash rest in (String c a, b)
  end.

Lemma split_dash_app (s t : string) :
  digits_only s = true -> split_dash (s ++ String "-" t) = (s, t).
Proof.
  induction s as [|c s IH]; intros H; [reflexivity|].
  simpl in H |- *. apply andb_prop in H as [Hc Hs].
  destruct (Ascii.eqb_spec c "-"%char) as [->|_]; [discriminate|].
  rewrite IH by exact Hs. reflexivity.
Qed.

Lemma all_digits_digits_only (n : nat) (s : string) :
  all_digits n s = true -> digits_only s = true /\ String.length s = n.
Proof.
  revert s. induction n as [|n IH]; intros [|c s] H; try discriminate; [split; reflexivity|].
  simpl in H |- *. apply andb_prop in H as [Hc Hs]. apply IH in Hs as [Hd Hl].
  rewrite Hc, Hd, Hl. split; reflexivity.
Qed.

Lemma dec_digits_digits_only (fuel : nat) :
  forall n acc, (0 <= n)%Z -> digits_only acc = true -> digits_only (dec_digits fuel n acc) = true.
Proof.
  induction fuel as [|f IH]; intros n acc Hn Hacc; cbn [dec_digits]; [exact Hacc|].
  assert (Hd : digits_only (String (digit_char (n mod 10)) acc) = true).
  { cbn [digits_only]. rewrite digit_char_is_digit by (apply Z.mod_pos_bound; lia). exact Hacc. }
  destruct (Z.ltb n 10); [exact Hd|]. apply IH; [apply Z.div_pos; lia|exact Hd].
Qed.

Lemma toString_digits_only (n : Z) : (0 <= n)%Z -> digits_only (toString n) = true.
Proof.
  intros Hn. unfold toString.
  replace (Z.ltb n 0) with false by (symmetry; apply Z.ltb_ge; lia).
  apply dec_digits_digits_only; [exact Hn|reflexivity].
Qed.

Lemma padStart2_digits_only (s : string) :
  digits_only s = true -> digits_only (padStart2 s) = true.
Proof.
  intros H. unfold padStart2.
  destruct (String.length s) as [|[|k]]; [reflexivity| |exact H].
  cbn [append digits_only]. exact H.
Qed.

Lemma of_digits_padStart2 (s : string) :
  of_digits_from 0 (padStart2 s) = of_digits_from 0 s.
Proof.
  unfold padStart2. destruct s as [|c s]; [reflexivity|].
  cbn [String.length]. destruct s as [|c' s]; reflexivity.
Qed.

Lemma of_digits_dec_digits (fuel : nat) :
  forall n acc, (0 <= n < 10 ^ Z.of_nat fuel)%Z ->
  of_digits_from 0 (dec_digits fuel n acc) = of_digits_from n acc.
Proof.
  induction fuel as [|f IH]; intros n acc Hn; cbn [dec_digits].
  - change (10 ^ Z.of_nat 0)%Z with 1%Z in Hn. replace n with 0%Z by lia. reflexivity.
  - rewrite Nat2Z.inj_succ, Z.pow_succ_r in Hn by lia.
    assert (Hp : (0 < 10 ^ Z.of_nat f)%Z) by (apply Z.pow_pos_nonneg; lia).
    assert (Hc : forall a, of_digits_from a (String (digit_char (n mod 10)) acc)
                           = of_digits_from (10 * a + n mod 10) acc).
    { intros a. cbn [of_digits_from]. unfold digit_char.
      pose proof (Z.mod_pos_bound n 10) as Hm.
      rewrite nat_ascii_embedding by lia. f_equal. lia. }
    destruct (Z.ltb_spec n 10) as [Hlt|Hge].
    + rewrite Hc. f_equal. rewrite Z.mod_small by lia. lia.
    + rewrite IH.
      * rewrite Hc. f_equal. pose proof (Z.div_mod n 10). lia.
      * split; [apply Z.div_pos; lia|apply Z.div_lt_upper_bound; lia].
Qed.

Lemma of_digits_toString (n : Z) :
  (0 <= n < 10 ^ 21)%Z -> of_digits_from 0 (toString n) = n.
Proof.
  intros Hn. unfold toString.
  replace (Z.ltb n 0) with false by (symmetry; apply Z.ltb_ge; lia).
  apply of_digits_dec_digits. exact Hn.
Qed.

(** X12: [getTodayDateString] tells days apart: two dates (year, month
    index, day of the month, all non-negative integers below [10^21] after
    the month's [+ 1]) give the same string only if they are the same, so
    the duplicate check on [formData.date] is per calendar day. *)
Theorem getTodayDateString_injective (y m d y' m' d' : Z) :
  (0 <= y < 10 ^ 21)%Z -> (0 <= m + 1 < 10 ^ 21)%Z -> (0 <= d < 10 ^ 21)%Z ->
  (0 <= y' < 10 ^ 21)%Z -> (0 <= m' + 1 < 10 ^ 21)%Z -> (0 <= d' < 10 ^ 21)%Z ->
  getTodayDateString y m d = getTodayDateString y' m' d' ->
  y = y' /\ m = m' /\ d = d'.
Proof.
  intros Hy Hm Hd Hy' Hm' Hd' H. unfold getTodayDateString in H. cbn [append] in H.
  apply (f_equal split_dash) in H.
  rewrite !split_dash_app in H by (apply toString_digits_only; lia).
  injection H as Ey H.
  apply (f_equal split_dash) in H.
  rewrite !split_dash_app in H by (apply padStart2_digits_only, toString_digits_only; lia).
  injection H as Em Ed.
  apply (f_equal (of_digits_from 0)) in Ey, Em, Ed.
  rewrite !of_digits_padStart2, !of_digits_toString in Em, Ed by lia.
  rewrite !of_digits_toString in Ey by lia.
  repeat split; lia.
Qed.

Lemma getTodayDateString_injective_witness :
  (2026 = 2026 /\ 1 = 1 /\ 1 = 1)%Z.
Proof.
  apply (getTodayDateString_injective 2026 1 1 2026 1 1); try lia; reflexivity.
Defined.

Lemma toString_digits_exact (k : nat) (n : Z) :
  (k < 21)%nat -> (k = O \/ 10 ^ Z.of_nat k <= n)%Z -> (0 <= n < 10 ^ Z.of_nat (S k))%Z ->
  all_digits (S k) (toString n) = true.
Proof.
  intros Hk Hlo Hhi. unfold toString.
  replace (Z.ltb n 0) with false by (symmetry; apply Z.ltb_ge; lia).
  rewrite <- (Nat.add_0_r (S k)). apply dec_digits_all_digits; auto.
Qed.

Lemma string_length_app (s t : string) :
  String.length (s ++ t) = (String.length s + String.length t)%nat.
Proof. induction s as [|c s IH]; simpl; [reflexivity|]. rewrite IH. reflexivity. Qed.

Lemma padStart2_toString (x : Z) :
  (0 <= x < 100)%Z -> all_digits 2 (padStart2 (toString x)) = true.
Proof.
  intros Hx. destruct (Z.ltb_spec x 10) as [Hlt|Hge].
  - assert (H : all_digits 1 (toString x) = true)
      by (apply (toString_digits_exact 0); simpl; lia).
    pose proof (all_digits_digits_only _ _ H) as [_ Hl].
    unfold padStart2. rewrite Hl. cbn [append all_digits]. exact H.
  - assert (H : all_digits 2 (toString x) = true)
      by (apply (toString_digits_exact 1); simpl; lia).
    pose proof (all_digits_digits_only _ _ H) as [_ Hl].
    unfold padStart2. rewrite Hl. exact H.
Qed.

(** X13: for a four-digit year, a month index in [0..11] and a day in
    [1..31], [getTodayDateString] is [YYYY-MM-DD]: ten characters, a
    four-digit field, a dash, two two-digit fields zero-padded and
    separated by a dash, that read back as the year, [month + 1] and the
    day. *)
Theorem getTodayDateString_format (y m d : Z) :
  (1000 <= y <= 9999)%Z -> (0 <= m <= 11)%Z -> (1 <= d <= 31)%Z ->
  exists ys ms ds,
    getTodayDateString y m d = ys ++ "-" ++ ms ++ "-" ++ ds
    /\ all_digits 4 ys = true /\ all_digits 2 ms = true /\ all_digits 2 ds = true
    /\ of_digits_from 0 ys = y /\ of_digits_from 0 ms = (m + 1)%Z /\ of_digits_from 0 ds = d
    /\ String.length (getTodayDateString y m d) = 10%nat.
Proof.
  intros Hy Hm Hd.
  exists (toString y), (padStart2 (toString (m + 1))), (padStart2 (toString d)).
  assert (Ay : all_digits 4 (toString y) = true)
    by (apply (toString_digits_exact 3); simpl; lia).
  assert (Am : all_digits 2 (padStart2 (toString (m + 1))) = true)
    by (apply padStart2_toString; lia).
  assert (Ad : all_digits 2 (padStart2 (toString d)) = true)
    by (apply padStart2_toString; lia).
  split; [reflexivity|]. split; [exact Ay|]. split; [exact Am|]. split; [exact Ad|].
  rewrite !of_digits_padStart2, !of_digits_toString by lia.
  split; [reflexivity|]. split; [reflexivity|]. split; [reflexivity|].
  unfold getTodayDateString.
  apply all_digits_digits_only in Ay as [_ Ly].
  apply all_digits_digits_only in Am as [_ Lm].
  apply all_digits_digits_only in Ad as [_ Ld].
  rewrite !string_length_app. cbn [String.length]. rewrite Ly, Lm, Ld. reflexivity.
Qed.

Lemma getTodayDateString_format_witness :
  getTodayDateString 2026 1 5 = "2026-02-05"
  /\ String.length (getTodayDateString 2026 1 5) = 10%nat.
Proof.
  split; [reflexivity|].
  destruct (getTodayDateString_format 2026 1 5) as (ys & ms & ds & _ & _ & _ & _ & _ & _ & _ & L);
    [lia|lia|lia|exact L].
Defined.

(** X14: once the card is revealed, every release of the pointer
    ([mouseup], [touchend]) runs [checkReveal] again on the frozen overlay,
    still over the threshold, and schedules one more [onComplete]; drawing
    and pressing schedule none. *)
Theorem scratch_completions_after_reveal (scratch : list Z -> Z -> Z -> list Z)
  (s : ScratchState) (evs : list ScratchEvent) :
  reveal_inv s -> isRevealed s = true ->
  completions (scratch_run scratch s evs) = (completions s + count_EndDraw evs)%nat.
Proof.
  unfold count_EndDraw. revert s.
  induction evs as [|e evs IH]; intros s Hi Hr; simpl; [lia|].
  destruct (scratch_step_frozen scratch s e Hi Hr) as [_ Hr'].
  rewrite (IH _ (scratch_step_inv scratch s e Hi) Hr').
  destruct e as [|x y|]; simpl.
  - reflexivity.
  - rewrite Hr, orb_true_r. reflexivity.
  - unfold checkReveal. simpl. unfold reveal_inv in Hi. rewrite <- Hi, Hr. simpl. lia.
Qed.

Lemma scratch_completions_after_reveal_witness :
  completions (scratch_run scratch_ex
                 (scratch_run scratch_ex scratch_init [StartDraw; Draw 0 0; Draw 1 0; Draw 2 0; Draw 3 0])
                 [EndDraw; StartDraw; Draw 0 0; EndDraw]) = 3%nat.
Proof.
  rewrite (scratch_completions_after_reveal scratch_ex _ [EndDraw; StartDraw; Draw 0 0; EndDraw]);
    [reflexivity|reflexivity|reflexivity].
Defined.

Lemma count_transparent_le (px : list Z) : (count_transparent px <= length px)%nat.
Proof.
  induction px as [|a px IH]; simpl; [lia|]. destruct (Z.ltb a 128); simpl; lia.
Qed.

(** X15: the reveal test on [n] sampled pixels of which [t] are cleared
    ([alpha < 128]) is [4 t > 3 n]: strictly more than three quarters, so
    exactly 75% cleared does not reveal, and an empty image never does. *)
Theorem reveal_reached_threshold (px : list Z) :
  reveal_reached px = Nat.ltb (3 * length px) (4 * count_transparent px).
Proof.
  unfold reveal_reached. pose proof (count_transparent_le px) as Hle.
  destruct (length px) as [|n] eqn:Hn.
  - replace (count_transparent px) with O by lia. reflexivity.
  - rewrite Nat2Z.inj_succ. change (Z.succ (Z.of_nat n)) with (Z.of_nat n + 1)%Z.
    destruct (Z.of_nat n + 1)%Z as [|p|p] eqn:Ep; [lia| |lia].
    unfold Qle_bool. cbn [Qdiv Qinv inject_Z Qmult Qnum Qden].
    rewrite Z.mul_1_r, Pos.mul_1_l, Pos.mul_1_r, Z.mul_1_r.
    destruct (Z.leb_spec (Z.of_nat (count_transparent px) * 100) (75 * Z.pos p));
      destruct (Nat.ltb_spec (3 * S n) (4 * count_transparent px)); simpl; try reflexivity; lia.
Qed.

(** X16: with the store reachable, the [grand] list holds exactly the
    orders with [isGrandEligible = true] and any other tab's list exactly
    the orders whose prize type is [win], each once, sorted by
    [timestamp.seconds] in non-increasing order (a missing timestamp
    counting as 0). *)
Theorem fetchAdminData_lists (env : Env) (tab : string) (st : Store) :
  has_collection env && has_getDocs env && has_db env = true ->
  getDocs_error env = None ->
  (forall d, In d (fetchAdminData env tab st) <->
     In d (orders st) /\
     (if String.eqb tab "grand" then isGrandEligible (snd d) = true
      else scratchPrizeType (snd d) = TWin)) /\
  Permutation (fetchAdminData env tab st) (filter (tab_filter tab) (orders st)) /\
  Sorted newer_first (fetchAdminData env tab st).
Proof.
  intros Hf He. unfold fetchAdminData. rewrite Hf, He. simpl negb; cbv iota.
  split; [|split; [apply sort_desc_perm | apply sort_desc_sorted]].
  intros d. split.
  - intros Hin. apply (Permutation_in _ (sort_desc_perm _)) in Hin.
    apply filter_In in Hin as [Hin Hb]. split; [exact Hin|].
    unfold tab_filter in Hb. destruct (String.eqb tab "grand"); [exact Hb|].
    destruct (scratchPrizeType (snd d)); [discriminate | reflexivity].
  - intros [Hin Hb]. apply (Permutation_in _ (Permutation_sym (sort_desc_perm _))).
    apply filter_In. split; [exact Hin|].
    unfold tab_filter. destruct (String.eqb tab "grand"); [exact Hb|].
    rewrite Hb. reflexivity.
Qed.

Lemma fetchAdminData_lists_witness :
  In ("c", order_of "0933333333" false TWin (mkTimestamp 200 0))
     (fetchAdminData env_ok "win" store_admin) /\
  ~ In ("b", order_of "0922222222" true TNone (mkTimestamp 100 5))
     (fetchAdminData env_ok "win" store_admin) /\
  Sorted newer_first (fetchAdminData env_ok "win" store_admin).
Proof.
  destruct (fetchAdminData_lists env_ok "win" store_admin eq_refl eq_refl) as [Hin [_ Hs]].
  split; [|split; [|exact Hs]].
  - apply Hin. split; [simpl; auto | reflexivity].
  - intros H. apply Hin in H as [_ H]. discriminate H.
Defined.
